(** * Trading Economics FastAPI façade (src/main.py): a shallow embedding

    The handlers of [src/main.py] are embedded as computations in a small
    state-and-exception monad.  Everything the handlers reach outside the
    file is an interface:

    - [FloatType] and [Runtime]: the carrier of Python floats and the pure
      library behaviour they rely on ([str.upper] and pydantic's field
      validators for [str] and [float]);
    - [Provider]: the stateful outside world (the Trading Economics client
      [te.getIndicatorData] and the clock behind [datetime.now()]).

    The theorems quantify over every instance of them, so they hold for
    the real libraries and for any behaviour of the data provider.  The
    [logger] calls have no effect on any response and are left out. *)

From Stdlib Require Import ZArith Lia Ascii String.
From stdpp Require Import base decidable option list strings sorting.

Local Open Scope string_scope.

(** ** Python values, pandas frames *)

(** The values a cell of a provider frame can hold.  [F] is the carrier of
    Python's [float]; no arithmetic is ever done on it. *)
Inductive pyval (F : Type) : Type :=
  | PyNone
  | PyBool (b : bool)
  | PyInt (z : Z)
  | PyFloat (f : F)
  | PyStr (s : string).
Arguments PyNone {F}.
Arguments PyBool {F} b.
Arguments PyInt {F} z.
Arguments PyFloat {F} f.
Arguments PyStr {F} s.

(** The carrier of Python's [float]. *)
Class FloatType := pyfloat : Type.

(** What the program needs from Python and pydantic.  [pydantic_str] and
    [pydantic_float] are pydantic's validators of a [str] and of a [float]
    field: [None] stands for a [ValidationError]. *)
Class Runtime `{PF : FloatType} := {
  str_upper : string → string;
  pydantic_str : pyval pyfloat → option string;
  pydantic_float : pyval pyfloat → option pyfloat
}.

(** ** Python dicts with insertion order *)

Fixpoint dict_get {V} (d : list (string * V)) (key : string) : option V :=
  match d with
  | [] => None
  | (k, v) :: d' => if decide (k = key) then Some v else dict_get d' key
  end.

Definition dict_contains {V} (d : list (string * V)) (key : string) : bool :=
  match dict_get d key with Some _ => true | None => false end.

Fixpoint dict_set {V} (d : list (string * V)) (key : string) (v : V)
  : list (string * V) :=
  match d with
  | [] => [(key, v)]
  | (k, v0) :: d' =>
      if decide (k = key) then (k, v) :: d' else (k, v0) :: dict_set d' key v
  end.

Definition dict_keys {V} (d : list (string * V)) : list string := d.*1.
Definition dict_values {V} (d : list (string * V)) : list V := d.*2.

(** ** Exceptions, outcomes, the handler monad *)

Inductive exn :=
  | HTTPException (status_code : nat) (detail : string)
  | ValidationError
  | KeyError (key : string)
  | IndexError
  | ProviderError (msg : string).

Inductive outcome (A : Type) :=
  | Returned (a : A)
  | Raised (e : exn).
Arguments Returned {A} a.
Arguments Raised {A} e.

(** The status FastAPI answers with: 200 for a returned value, the
    exception's own code for an [HTTPException], 500 for anything else. *)
Definition http_status {A} (o : outcome A) : nat :=
  match o with
  | Returned _ => 200
  | Raised (HTTPException code _) => code
  | Raised _ => 500
  end.

Section Model.
Context `{PF : FloatType}.

(** A cell of a frame, a value of a dict. *)
Definition cell := pyval pyfloat.

(** A pandas [Series] as returned by [DataFrame.iloc[-1]]: the row's
    values under the frame's column labels. *)
Definition Series := list (string * cell).

Record DataFrame := {
  df_columns : list string;
  df_rows : list (list cell)
}.

(** [DataFrame.empty]: no rows or no columns. *)
Definition df_empty (df : DataFrame) : bool :=
  match df_rows df, df_columns df with
  | [], _ | _, [] => true
  | _ :: _, _ :: _ => false
  end.

(** [DataFrame.iloc[-1]]; [None] is Python's [IndexError]. *)
Definition iloc_last (df : DataFrame) : option Series :=
  match last (df_rows df) with
  | Some row => Some (zip (df_columns df) row)
  | None => None
  end.

(** [Series.get(key, default)]. *)
Fixpoint series_get (s : Series) (key : string) (default : cell) : cell :=
  match s with
  | [] => default
  | (k, v) :: s' => if decide (k = key) then v else series_get s' key default
  end.

(** What one call of [te.getIndicatorData(..., output_type='df')] does:
    raise, return [None], or return a frame. *)
Inductive te_response :=
  | TeRaises (msg : string)
  | TeReturns (data : option DataFrame).

End Model.

(** The stateful collaborators.  [W] is whatever state the provider and the
    clock have; a call may answer differently every time. *)
Class Provider `{PF : FloatType} (W : Type) := {
  te_getIndicatorData : string → string → W → te_response * W;
  datetime_now_isoformat : W → string * W
}.

(** A handler's state: the outside world, and the list of provider calls
    made so far (country, indicator), oldest first. *)
Record state (W : Type) := mkState {
  world : W;
  te_calls : list (string * string)
}.
Arguments mkState {W} world te_calls.
Arguments world {W} s.
Arguments te_calls {W} s.

Section Handlers.
Context `{RT : Runtime} {W : Type} `{PR : !Provider W}.

Definition M (A : Type) : Type := state W → outcome A * state W.

Definition ret {A} (a : A) : M A := λ s, (Returned a, s).

Definition raise {A} (e : exn) : M A := λ s, (Raised e, s).

Definition bind {A B} (m : M A) (k : A → M B) : M B :=
  λ s, match m s with
       | (Returned a, s') => k a s'
       | (Raised e, s') => (Raised e, s')
       end.

(** [try: body / except Exception as e: handler e].  Every exception of
    [exn] is an [Exception]; the handler starts in the state the body left. *)
Definition try_except {A} (body : M A) (handler : exn → M A) : M A :=
  λ s, match body s with
       | (Returned a, s') => (Returned a, s')
       | (Raised e, s') => handler e s'
       end.

Definition or_raise {A} (e : exn) (o : option A) : M A :=
  match o with Some a => ret a | None => raise e end.

Notation "'let*' x := m 'in' k" := (bind m (λ x, k))
  (at level 10, x name, m at level 100, k at level 200).

(** [for x in xs: acc = body x acc], stopping at the first exception. *)
Fixpoint for_each {X S} (xs : list X) (body : X → S → M S) (acc : S) : M S :=
  match xs with
  | [] => ret acc
  | x :: xs' => let* acc' := body x acc in for_each xs' body acc'
  end.

(** One call of the provider, recorded in [te_calls]. *)
Definition getIndicatorData (country indicator : string)
  : M (option DataFrame) :=
  λ s, let '(r, w') := te_getIndicatorData country indicator (world s) in
       let s' := mkState w' (te_calls s ++ [(country, indicator)])%list in
       match r with
       | TeRaises msg => (Raised (ProviderError msg), s')
       | TeReturns data => (Returned data, s')
       end.

Definition datetime_now : M string :=
  λ s, let '(t, w') := datetime_now_isoformat (world s) in
       (Returned t, mkState w' (te_calls s)).

(** ** Response models *)

Record EconomicIndicator := {
  country : string;
  indicator : string;
  value : option pyfloat;
  previous_value : option pyfloat;
  last_update : option string;
  unit_ : option string;  (* the field [unit] *)
  frequency : option string
}.

Record CountryEconomicData := {
  ced_country : string;
  interest_rate : option EconomicIndicator;
  gdp_growth : option EconomicIndicator;
  inflation_rate : option EconomicIndicator;
  unemployment_rate : option EconomicIndicator;
  last_updated : string
}.

Record CurrencyPairData := {
  base_currency : string;
  quote_currency : string;
  base_country_data : CountryEconomicData;
  quote_country_data : CountryEconomicData
}.

(** The dict built by [safe_get_indicator_data], key by key. *)
Record indicator_dict := {
  d_country : cell;
  d_indicator : string;
  d_value : cell;
  d_previous_value : cell;
  d_last_update : cell;
  d_unit : cell;
  d_frequency : cell
}.

(** Pydantic's validator of an [Optional[T]] field from that of [T]. *)
Definition pydantic_optional {T} (validate : cell → option T) (v : cell)
  : option (option T) :=
  match v with
  | PyNone => Some None
  | _ => match validate v with Some t => Some (Some t) | None => None end
  end.

(** The constructor call [EconomicIndicator] applied to the unpacked dict:
    every field is validated against its declared type; [None] is
    pydantic's [ValidationError]. *)
Definition validate_indicator (d : indicator_dict) : option EconomicIndicator :=
  match pydantic_str (d_country d),
        pydantic_optional pydantic_float (d_value d),
        pydantic_optional pydantic_float (d_previous_value d),
        pydantic_optional pydantic_str (d_last_update d),
        pydantic_optional pydantic_str (d_unit d),
        pydantic_optional pydantic_str (d_frequency d) with
  | Some c, Some v, Some pv, Some lu, Some u, Some f =>
      Some {| country := c; indicator := d_indicator d; value := v;
              previous_value := pv; last_update := lu; unit_ := u;
              frequency := f |}
  | _, _, _, _, _, _ => None
  end.

Definition EconomicIndicator_new (d : indicator_dict) : M EconomicIndicator :=
  or_raise ValidationError (validate_indicator d).

(** ** Helper functions *)

(** The dict literal of [safe_get_indicator_data], read off the row
    [latest]. *)
Definition indicator_data_of (country indicator : string) (latest : Series)
  : indicator_dict :=
  {| d_country := series_get latest "Country" (PyStr country);
     d_indicator := indicator;
     d_value := series_get latest "LastUpdate" PyNone;
     d_previous_value := series_get latest "PreviousValue" PyNone;
     d_last_update := series_get latest "LastUpdate" PyNone;
     d_unit := series_get latest "Unit" PyNone;
     d_frequency := series_get latest "Frequency" PyNone |}.

Definition safe_get_indicator_data (country indicator : string)
  : M (option indicator_dict) :=
  try_except
    (let* data := getIndicatorData country indicator in
     match data with
     | Some df =>
         if negb (df_empty df) then
           let* latest := or_raise IndexError (iloc_last df) in
           ret (Some (indicator_data_of country indicator latest))
         else ret None
     | None => ret None
     end)
    (λ _, ret None).

Definition indicators : list (string * string) :=
  [("interest_rate", "Interest Rate");
   ("gdp_growth", "GDP Growth Rate");
   ("inflation_rate", "Inflation Rate");
   ("unemployment_rate", "Unemployment Rate")].

(** [CountryEconomicData(country=..., **data, last_updated=...)].  The four
    slots are read from [data] by field name. *)
Definition CountryEconomicData_new (country : string)
    (data : list (string * option EconomicIndicator)) (last_updated : string)
  : M CountryEconomicData :=
  match dict_get data "interest_rate", dict_get data "gdp_growth",
        dict_get data "inflation_rate", dict_get data "unemployment_rate" with
  | Some ir, Some gdp, Some infl, Some unemp =>
      ret {| ced_country := country; interest_rate := ir; gdp_growth := gdp;
             inflation_rate := infl; unemployment_rate := unemp;
             last_updated := last_updated |}
  | _, _, _, _ => raise ValidationError
  end.

Definition get_country_economic_data (country : string)
  : M CountryEconomicData :=
  let* data :=
    for_each indicators
      (λ '(key, indicator) data,
         let* indicator_data := safe_get_indicator_data country indicator in
         match indicator_data with
         | Some d =>
             let* e := EconomicIndicator_new d in
             ret (dict_set data key (Some e))
         | None => ret (dict_set data key None)
         end)
      [] in
  let* now := datetime_now in
  CountryEconomicData_new country data now.

Definition CURRENCY_COUNTRY_MAP : list (string * string) :=
  [("USD", "United States");
   ("EUR", "Euro Area");
   ("GBP", "United Kingdom");
   ("JPY", "Japan");
   ("CHF", "Switzerland");
   ("CAD", "Canada");
   ("AUD", "Australia");
   ("NZD", "New Zealand");
   ("SEK", "Sweden");
   ("NOK", "Norway");
   ("DKK", "Denmark");
   ("PLN", "Poland");
   ("CZK", "Czech Republic");
   ("HUF", "Hungary");
   ("SGD", "Singapore");
   ("HKD", "Hong Kong");
   ("KRW", "South Korea");
   ("CNY", "China");
   ("INR", "India");
   ("BRL", "Brazil");
   ("MXN", "Mexico");
   ("ZAR", "South Africa");
   ("RUB", "Russia");
   ("TRY", "Turkey")].

(** ** API endpoints *)

Definition get_available_currencies : M (list string) :=
  ret (dict_keys CURRENCY_COUNTRY_MAP).

Definition get_country_indicators (country : string) : M CountryEconomicData :=
  try_except
    (let* data := get_country_economic_data country in ret data)
    (λ _, raise (HTTPException 500 ("Error fetching data for " ++ country))).

Definition get_currency_pair_data (base quote : string) : M CurrencyPairData :=
  let base := str_upper base in
  let quote := str_upper quote in
  if negb (dict_contains CURRENCY_COUNTRY_MAP base) then
    raise (HTTPException 404 ("Currency " ++ base ++ " not supported"))
  else if negb (dict_contains CURRENCY_COUNTRY_MAP quote) then
    raise (HTTPException 404 ("Currency " ++ quote ++ " not supported"))
  else
    let* base_country :=
      or_raise (KeyError base) (dict_get CURRENCY_COUNTRY_MAP base) in
    let* quote_country :=
      or_raise (KeyError quote) (dict_get CURRENCY_COUNTRY_MAP quote) in
    try_except
      (let* base_data := get_country_economic_data base_country in
       let* quote_data := get_country_economic_data quote_country in
       ret {| base_currency := base; quote_currency := quote;
              base_country_data := base_data;
              quote_country_data := quote_data |})
      (λ _, raise (HTTPException 500 "Error fetching currency pair data")).

(** [if not countries: countries = list(CURRENCY_COUNTRY_MAP.values())[:10]]:
    both [None] and the empty list are falsy. *)
Definition countries_or_default (countries : option (list string))
  : list string :=
  match countries with
  | None | Some [] => take 10 (dict_values CURRENCY_COUNTRY_MAP)
  | Some cs => cs
  end.

(** The loop the four list endpoints share, for the indicator [label]. *)
Definition collect_indicator (label : string) (countries : list string)
  : M (list EconomicIndicator) :=
  for_each countries
    (λ country results,
       let* data := safe_get_indicator_data country label in
       match data with
       | Some d =>
           let* e := EconomicIndicator_new d in ret (results ++ [e])%list
       | None => ret results
       end)
    [].

Definition get_interest_rates (countries : option (list string))
  : M (list EconomicIndicator) :=
  let countries := countries_or_default countries in
  collect_indicator "Interest Rate" countries.

Definition get_gdp_growth (countries : option (list string))
  : M (list EconomicIndicator) :=
  let countries := countries_or_default countries in
  collect_indicator "GDP Growth Rate" countries.

Definition get_inflation_rates (countries : option (list string))
  : M (list EconomicIndicator) :=
  let countries := countries_or_default countries in
  collect_indicator "Inflation Rate" countries.

Definition get_unemployment_rates (countries : option (list string))
  : M (list EconomicIndicator) :=
  let countries := countries_or_default countries in
  collect_indicator "Unemployment Rate" countries.

Definition major_currencies : list string :=
  ["USD"; "EUR"; "GBP"; "JPY"; "CHF"; "CAD"; "AUD"].

Definition base_currencies : list string := ["USD"; "EUR"; "GBP"].

(** The body of the inner loop of [get_all_major_currency_pairs] once
    [base != quote] holds: the [try] around the composer call. *)
Definition try_pair (base quote : string) (pairs : list CurrencyPairData)
  : M (list CurrencyPairData) :=
  try_except
    (let* pair_data := get_currency_pair_data base quote in
     ret (pairs ++ [pair_data])%list)
    (λ _, ret pairs).

Definition get_all_major_currency_pairs : M (list CurrencyPairData) :=
  for_each base_currencies
    (λ base pairs,
       for_each major_currencies
         (λ quote pairs,
            if decide (base ≠ quote) then try_pair base quote pairs
            else ret pairs)
         pairs)
    [].

End Handlers.

(** ** What the fetches of a request amount to

    The definitions below are not handlers of the program: they name what
    the theorems talk about. *)

Section Specification.
Context `{RT : Runtime} {W : Type} `{PR : !Provider W}.

(** The provider's answer counts as a failed fetch: it raised, returned
    [None], or returned an empty frame. *)
Definition te_fails (r : te_response) : Prop :=
  match r with
  | TeRaises _ | TeReturns None => True
  | TeReturns (Some df) => df_empty df = true
  end.

(** The provider's answers to a sequence of calls made one after the other,
    and the world they leave. *)
Fixpoint provider_run (calls : list (string * string)) (w : W)
  : list te_response * W :=
  match calls with
  | [] => ([], w)
  | (country, indicator) :: calls' =>
      let '(r, w1) := te_getIndicatorData country indicator w in
      let '(rs, w2) := provider_run calls' w1 in
      (r :: rs, w2)
  end.

(** The record a provider answer turns into: absent for a failed fetch,
    else read off the last row of the frame. *)
Definition dict_of_response (country indicator : string) (r : te_response)
  : option indicator_dict :=
  match r with
  | TeReturns (Some df) =>
      if df_empty df then None
      else indicator_data_of country indicator <$> iloc_last df
  | _ => None
  end.

(** What [safe_get_indicator_data] hands back, with the state it leaves. *)
Definition fetched (country indicator : string) (s : state W)
  : option indicator_dict * state W :=
  match safe_get_indicator_data country indicator s with
  | (Returned od, s') => (od, s')
  | (Raised _, s') => (None, s')
  end.

(** The fetches of a sequence of calls, each starting where the previous
    one stopped. *)
Fixpoint fetch_all (calls : list (string * string)) (s : state W)
  : list (option indicator_dict) * state W :=
  match calls with
  | [] => ([], s)
  | (country, indicator) :: calls' =>
      let '(od, s1) := fetched country indicator s in
      let '(ods, s2) := fetch_all calls' s1 in
      (od :: ods, s2)
  end.

(** A fetch is usable when it is absent or its dict passes the validation
    of [EconomicIndicator]; [slot_of] is the slot it then fills. *)
Definition slot_ok (od : option indicator_dict) : Prop :=
  match od with
  | Some d => is_Some (validate_indicator d)
  | None => True
  end.

Definition slot_of (od : option indicator_dict) : option EconomicIndicator :=
  match od with
  | Some d => validate_indicator d
  | None => None
  end.

(** The four provider calls of one aggregation. *)
Definition indicator_calls (country : string) : list (string * string) :=
  (λ kv : string * string, (country, kv.2)) <$> indicators.

(** The provider calls of a list endpoint for the indicator [label]. *)
Definition list_calls (label : string) (countries : list string)
  : list (string * string) :=
  (λ country, (country, label)) <$> countries.

(** The default country list of the four list endpoints. *)
Definition default_countries : list string :=
  ["United States"; "Euro Area"; "United Kingdom"; "Japan"; "Switzerland";
   "Canada"; "Australia"; "New Zealand"; "Sweden"; "Norway"].

(** The combinations of the sweep of [/all-currency-pairs], as the spec
    lists them. *)
Definition sweep_combinations : list (string * string) :=
  [("USD", "EUR"); ("USD", "GBP"); ("USD", "JPY"); ("USD", "CHF");
   ("USD", "CAD"); ("USD", "AUD");
   ("EUR", "USD"); ("EUR", "GBP"); ("EUR", "JPY"); ("EUR", "CHF");
   ("EUR", "CAD"); ("EUR", "AUD");
   ("GBP", "USD"); ("GBP", "EUR"); ("GBP", "JPY"); ("GBP", "CHF");
   ("GBP", "CAD"); ("GBP", "AUD")].

(** The sweep in the spec's words: the composer is called once per
    combination, in order; a combination whose call raises is dropped. *)
Fixpoint sweep (combos : list (string * string))
    (pairs : list CurrencyPairData) (s : state W)
  : list CurrencyPairData * state W :=
  match combos with
  | [] => (pairs, s)
  | (base, quote) :: combos' =>
      match get_currency_pair_data base quote s with
      | (Returned p, s') => sweep combos' (pairs ++ [p])%list s'
      | (Raised _, s') => sweep combos' pairs s'
      end
  end.

End Specification.

(** ** A reference runtime and a scripted provider

    Concrete instances on which the handlers run by computation. *)

(** A decimal number: [dec_mantissa / 10 ^ dec_scale]. *)
Record decimal := { dec_mantissa : Z; dec_scale : nat }.

Definition digit_of (c : ascii) : option Z :=
  let n := Ascii.N_of_ascii c in
  if ((48 <=? n) && (n <=? 57))%N then Some (Z.of_N (n - 48)) else None.

(** Digits with at most one point, at least one digit. *)
Fixpoint scan_decimal (s : string) (seen_digit : bool)
    (after_point : option nat) (acc : Z) : option decimal :=
  match s with
  | EmptyString =>
      if seen_digit
      then Some {| dec_mantissa := acc; dec_scale := default 0 after_point |}
      else None
  | String c s' =>
      match digit_of c, after_point with
      | Some d, _ => scan_decimal s' true (S <$> after_point) (10 * acc + d)
      | None, None =>
          if Ascii.eqb c "." then scan_decimal s' seen_digit (Some 0) acc
          else None
      | None, Some _ => None
      end
  end.

(** The plain decimal literals among the strings Python's [float] accepts. *)
Definition float_of_str (s : string) : option decimal :=
  match s with
  | String "-" s' =>
      (λ d, {| dec_mantissa := - dec_mantissa d; dec_scale := dec_scale d |})
        <$> scan_decimal s' false None 0
  | String "+" s' => scan_decimal s' false None 0
  | _ => scan_decimal s false None 0
  end.

Definition ascii_upper (c : ascii) : ascii :=
  let n := Ascii.N_of_ascii c in
  if ((97 <=? n) && (n <=? 122))%N then Ascii.ascii_of_N (n - 32) else c.

Fixpoint ascii_str_upper (s : string) : string :=
  match s with
  | EmptyString => EmptyString
  | String c s' => String (ascii_upper c) (ascii_str_upper s')
  end.

(** Floats as decimals, [str.upper] on ASCII letters, and pydantic 2's
    default (lax) validators on the values of [pyval]: a [str] field takes
    strings only; a [float] field takes floats, ints, bools and the strings
    [float] can read, of which [float_of_str] knows the plain decimal ones. *)
#[local] Instance decimal_float : FloatType := decimal.

#[local] Instance ref_runtime : Runtime := {|
  str_upper := ascii_str_upper;
  pydantic_str v := match v with PyStr s => Some s | _ => None end;
  pydantic_float v :=
    match v with
    | PyFloat f => Some f
    | PyInt z => Some {| dec_mantissa := z; dec_scale := 0 |}
    | PyBool b => Some {| dec_mantissa := if b then 1 else 0; dec_scale := 0 |}
    | PyStr s => float_of_str s
    | PyNone => None
    end
|}.

(** A provider that answers from a script, one entry per call, and raises
    once the script is used up; a clock that reads its times off a list. *)
Record script := {
  responses : list te_response;
  clock : list string
}.

#[local] Instance scripted : Provider script := {|
  te_getIndicatorData _ _ w :=
    match responses w with
    | r :: rs => (r, {| responses := rs; clock := clock w |})
    | [] => (TeRaises "connection refused", w)
    end;
  datetime_now_isoformat w :=
    match clock w with
    | t :: ts => (t, {| responses := responses w; clock := ts |})
    | [] => ("1970-01-01T00:00:00", w)
    end
|}.

(** One row as the provider sends it, with its update date in [LastUpdate]. *)
Definition us_rate_frame : DataFrame := {|
  df_columns := ["Country"; "Category"; "LatestValue"; "PreviousValue";
                 "LastUpdate"; "Unit"; "Frequency"];
  df_rows := [[PyStr "United States"; PyStr "Interest Rate";
               PyFloat {| dec_mantissa := 550; dec_scale := 2 |};
               PyFloat {| dec_mantissa := 525; dec_scale := 2 |};
               PyStr "2023-07-26T00:00:00"; PyStr "percent"; PyStr "Daily"]]
|}.

(** A frame whose [LastUpdate] cell holds a number. *)
Definition numeric_frame : DataFrame := {|
  df_columns := ["Country"; "PreviousValue"; "LastUpdate"];
  df_rows := [[PyStr "Japan"; PyInt 1; PyNone];
              [PyStr "Japan"; PyInt 2; PyNone]]
|}.

Definition start (rs : list te_response) : state script :=
  mkState {| responses := rs; clock := ["2024-01-31T12:00:00"] |} [].

(** ** The remaining endpoints: [/health] and [/countries]

    [/countries] asks the provider for its whole catalogue, a call without
    country or indicator, and runs pandas' [unique] and Python's [sorted]
    over a column of the answer.  Both are interfaces again: [Catalogue]
    for the call, [Columns] for the two library functions, of which the
    model only fixes what they do on a column of strings. *)

(** Values in order of first appearance, as [Series.unique] returns them. *)
Fixpoint unique_from {A} `{EqDecision A} (seen : list A) (l : list A)
  : list A :=
  match l with
  | [] => []
  | x :: l' =>
      if decide (x ∈ seen) then unique_from seen l'
      else x :: unique_from (x :: seen) l'
  end.

Definition unique {A} `{EqDecision A} (l : list A) : list A :=
  unique_from [] l.

Class Catalogue `{PF : FloatType} (W : Type) := {
  te_getIndicatorData_all : W → te_response * W
}.

(** [series_unique] is [Series.unique().tolist()]; [py_sorted] is [sorted],
    [None] standing for the [TypeError] of cells that do not compare.
    Strings compare by code point. *)
Class Columns `{PF : FloatType} := {
  series_unique : list cell → list cell;
  py_sorted : list cell → option (list cell);
  series_unique_str (names : list string) :
    series_unique (PyStr <$> names) = PyStr <$> unique names;
  py_sorted_str (names : list string) :
    py_sorted (PyStr <$> names) = Some (PyStr <$> merge_sort String.le names)
}.

Section MoreHandlers.
Context `{RT : Runtime} {W : Type} `{PR : !Provider W}.
Context `{CA : !Catalogue W} `{CO : !Columns}.

Notation "'let*' x := m 'in' k" := (bind m (λ x, k))
  (at level 10, x name, m at level 100, k at level 200).

(** [str(e)] of the exceptions the provider raises; the model keeps no text
    for the other exceptions, which do not arise where [exn_str] is used. *)
Definition exn_str (e : exn) : string :=
  match e with
  | ProviderError msg => msg
  | _ => ""
  end.

(** The dict [/health] returns. *)
Record health_report := {
  status : string;
  trading_economics_api : string;
  timestamp : string
}.

Definition health_check : M health_report :=
  let* api_status :=
    try_except
      (let* test_data :=
         getIndicatorData "United States" "Interest Rate" in
       ret (match test_data with
            | Some _ => "healthy"
            | None => "degraded"
            end))
      (λ e, ret ("error: " ++ exn_str e)) in
  let* now := datetime_now in
  ret {| status := "healthy";
         trading_economics_api := api_status;
         timestamp := now |}.

(** The call [te.getIndicatorData(output_type='df')].  [te_calls] keeps the
    calls for one country and one indicator and is left as it is. *)
Definition getAllIndicatorData : M (option DataFrame) :=
  λ s, let '(r, w') := te_getIndicatorData_all (world s) in
       let s' := mkState w' (te_calls s) in
       match r with
       | TeRaises msg => (Raised (ProviderError msg), s')
       | TeReturns data => (Returned data, s')
       end.

(** [df[key]]: the column under the label [key]; [None] is Python's
    [KeyError]. *)
Definition df_column (df : DataFrame) (key : string) : option (list cell) :=
  if decide (key ∈ df_columns df)
  then Some ((λ row, series_get (zip (df_columns df) row) key PyNone)
               <$> df_rows df)
  else None.

(** The value is the list the handler returns, before FastAPI checks it
    against the response model.  A [TypeError] of [sorted] is raised inside
    the [try] and ends, like every other exception there, in the fallback. *)
Definition get_available_countries : M (list cell) :=
  let* found :=
    try_except
      (let* countries_data := getAllIndicatorData in
       match countries_data with
       | Some df =>
           if negb (df_empty df) then
             let* column :=
               or_raise (KeyError "Country") (df_column df "Country") in
             ret (py_sorted (series_unique column))
           else ret None
       | None => ret None
       end)
      (λ _, ret None) in
  match found with
  | Some countries => ret countries
  | None => ret (PyStr <$> dict_values CURRENCY_COUNTRY_MAP)
  end.

(** The list [/countries] reads off a provider answer, when it does: the
    [Country] column of a frame that is not empty, without duplicates and
    sorted. *)
Definition countries_of_response (r : te_response) : option (list cell) :=
  match r with
  | TeReturns (Some df) =>
      if df_empty df then None
      else match df_column df "Country" with
           | Some column => py_sorted (series_unique column)
           | None => None
           end
  | _ => None
  end.

End MoreHandlers.

(** A catalogue that answers from its own script. *)
Record catalogue_script := {
  catalogue : list te_response;
  indicator_script : script
}.

#[local] Instance scripted_indicators : Provider catalogue_script := {|
  te_getIndicatorData country indicator w :=
    let '(r, w') := te_getIndicatorData country indicator (indicator_script w) in
    (r, {| catalogue := catalogue w; indicator_script := w' |});
  datetime_now_isoformat w :=
    let '(t, w') := datetime_now_isoformat (indicator_script w) in
    (t, {| catalogue := catalogue w; indicator_script := w' |})
|}.

#[local] Instance scripted_catalogue : Catalogue catalogue_script := {|
  te_getIndicatorData_all w :=
    match catalogue w with
    | r :: rs => (r, {| catalogue := rs; indicator_script := indicator_script w |})
    | [] => (TeRaises "connection refused", w)
    end
|}.

(** The catalogue as the provider sends it: one row per country and
    indicator. *)
Definition catalogue_frame : DataFrame := {|
  df_columns := ["Country"; "Category"];
  df_rows := [[PyStr "Sweden"; PyStr "Interest Rate"];
              [PyStr "Japan"; PyStr "Interest Rate"];
              [PyStr "Sweden"; PyStr "Inflation Rate"];
              [PyStr "Canada"; PyStr "Interest Rate"]]
|}.

Definition catalogue_start (rs : list te_response) : state catalogue_script :=
  mkState {| catalogue := rs;
             indicator_script := {| responses := []; clock := [] |} |} [].

(** ** The loop the aggregator and the list endpoints share

    A name for the body of their [for] loops: fetch the call of [x], validate
    the row if there is one, and let [upd] put the slot into the
    accumulator. *)

Section LoopBody.
Context `{RT : Runtime} {W : Type} `{PR : !Provider W}.

Definition fetch_step {X S} (call_of : X → string * string)
    (upd : S → X → option EconomicIndicator → S) (x : X) (acc : S) : M S :=
  bind (safe_get_indicator_data (call_of x).1 (call_of x).2)
    (λ indicator_data,
       match indicator_data with
       | Some d =>
           bind (EconomicIndicator_new d) (λ e, ret (upd acc x (Some e)))
       | None => ret (upd acc x None)
       end).

(** What the accumulator becomes when every fetch of the loop is usable. *)
Definition fold_slots {X S} (upd : S → X → option EconomicIndicator → S)
    (acc : S) (xs : list X) (ods : list (option indicator_dict)) : S :=
  foldl (λ a xo, upd a xo.1 (slot_of xo.2)) acc (zip xs ods).

(** [results.append(...)] when there is an entry. *)
Definition append_slot (results : list EconomicIndicator) (country : string)
    (slot : option EconomicIndicator) : list EconomicIndicator :=
  match slot with
  | Some e => (results ++ [e])%list
  | None => results
  end.

(** [data[key] = ...] for the item [(key, indicator)]. *)
Definition set_slot (data : list (string * option EconomicIndicator))
    (item : string * string) (slot : option EconomicIndicator)
  : list (string * option EconomicIndicator) :=
  dict_set data item.1 slot.

(** The four list endpoints, each with the indicator it asks for. *)
Definition list_endpoints
  : list ((option (list string) → M (list EconomicIndicator)) * string) :=
  [(get_interest_rates, "Interest Rate");
   (get_gdp_growth, "GDP Growth Rate");
   (get_inflation_rates, "Inflation Rate");
   (get_unemployment_rates, "Unemployment Rate")].


Definition pair_codes (p : CurrencyPairData) : string * string :=
  (base_currency p, quote_currency p).

(** What [/health] reports about the provider, by the provider's answer. *)
Definition api_status_of (r : te_response) : string :=
  match r with
  | TeRaises msg => "error: " ++ msg
  | TeReturns None => "degraded"
  | TeReturns (Some _) => "healthy"
  end.

End LoopBody.

(** A provider that cannot be reached, whatever is asked and whenever. *)
#[local] Instance unreachable : Provider unit := {|
  te_getIndicatorData _ _ w := (TeRaises "connection refused", w);
  datetime_now_isoformat w := ("2024-01-31T12:00:00", w)
|}.

(** ** The static table as a module global

    In Python [CURRENCY_COUNTRY_MAP] is a dict bound to a global name: a
    handler that mentions it reads, at that moment, the dict the process
    then holds.  Here the dict is part of the process state, next to the
    provider and the clock, and the handlers that mention it read it from
    there, once per mention.  The handlers that do not mention it are the
    ones above, run on this state. *)

Record module_state (W0 : Type) := {
  currency_country_map : list (string * string);
  outside : W0
}.
Arguments currency_country_map {W0} m.
Arguments outside {W0} m.

(** The page [/] answers with. *)
Record root_info := {
  message : string;
  version : string;
  documentation : string;
  endpoints : list (string * string)
}.

(** A request to one of the routes, with its parameters. *)
Inductive request :=
  | Root
  | Countries
  | Currencies
  | Indicators (country : string)
  | CurrencyPair (base quote : string)
  | InterestRates (countries : option (list string))
  | GdpGrowth (countries : option (list string))
  | Inflation (countries : option (list string))
  | Unemployment (countries : option (list string))
  | AllCurrencyPairs
  | Health.

Module Live.
Section Live.
Context `{RT : Runtime} {W0 : Type} `{PR0 : !Provider W0}.
Context `{CA0 : !Catalogue W0} `{CO : !Columns}.

(** The provider and the clock do not see the module's globals. *)
#[local] Instance provider : Provider (module_state W0) := {|
  te_getIndicatorData country indicator m :=
    let '(r, w') := te_getIndicatorData country indicator (outside m) in
    (r, {| currency_country_map := currency_country_map m; outside := w' |});
  datetime_now_isoformat m :=
    let '(t, w') := datetime_now_isoformat (outside m) in
    (t, {| currency_country_map := currency_country_map m; outside := w' |})
|}.

#[local] Instance catalogue : Catalogue (module_state W0) := {|
  te_getIndicatorData_all m :=
    let '(r, w') := te_getIndicatorData_all (outside m) in
    (r, {| currency_country_map := currency_country_map m; outside := w' |})
|}.

Notation "'let*' x := m 'in' k" := (bind m (λ x, k))
  (at level 10, x name, m at level 100, k at level 200).

(** Computations on the process state. *)
Local Abbreviation M := (@M (module_state W0)).

(** Reading the global name [CURRENCY_COUNTRY_MAP]. *)
Definition CURRENCY_COUNTRY_MAP_now : M (list (string * string)) :=
  λ s, (Returned (currency_country_map (world s)), s).

Definition root : M root_info :=
  ret {| message := "Trading Economics API";
         version := "1.0.0";
         documentation := "/docs";
         endpoints :=
           [("countries", "/countries");
            ("indicators", "/indicators/{country}");
            ("currency_pairs", "/currency-pairs/{base}/{quote}");
            ("interest_rates", "/interest-rates");
            ("gdp_growth", "/gdp-growth");
            ("inflation", "/inflation");
            ("unemployment", "/unemployment")] |}.

Definition get_available_countries : M (list cell) :=
  let* found :=
    try_except
      (let* countries_data := getAllIndicatorData in
       match countries_data with
       | Some df =>
           if negb (df_empty df) then
             let* column :=
               or_raise (KeyError "Country") (df_column df "Country") in
             ret (py_sorted (series_unique column))
           else ret None
       | None => ret None
       end)
      (λ _, ret None) in
  match found with
  | Some countries => ret countries
  | None =>
      let* table := CURRENCY_COUNTRY_MAP_now in
      ret (PyStr <$> dict_values table)
  end.

Definition get_available_currencies : M (list string) :=
  let* table := CURRENCY_COUNTRY_MAP_now in
  ret (dict_keys table).

Definition get_currency_pair_data (base quote : string) : M CurrencyPairData :=
  let base := str_upper base in
  let quote := str_upper quote in
  let* table := CURRENCY_COUNTRY_MAP_now in
  if negb (dict_contains table base) then
    raise (HTTPException 404 ("Currency " ++ base ++ " not supported"))
  else
    let* table := CURRENCY_COUNTRY_MAP_now in
    if negb (dict_contains table quote) then
      raise (HTTPException 404 ("Currency " ++ quote ++ " not supported"))
    else
      let* table := CURRENCY_COUNTRY_MAP_now in
      let* base_country := or_raise (KeyError base) (dict_get table base) in
      let* table := CURRENCY_COUNTRY_MAP_now in
      let* quote_country := or_raise (KeyError quote) (dict_get table quote) in
      try_except
        (let* base_data := get_country_economic_data base_country in
         let* quote_data := get_country_economic_data quote_country in
         ret {| base_currency := base; quote_currency := quote;
                base_country_data := base_data;
                quote_country_data := quote_data |})
        (λ _, raise (HTTPException 500 "Error fetching currency pair data")).

Definition countries_or_default (countries : option (list string))
  : M (list string) :=
  match countries with
  | None | Some [] =>
      let* table := CURRENCY_COUNTRY_MAP_now in
      ret (take 10 (dict_values table))
  | Some cs => ret cs
  end.

Definition get_interest_rates (countries : option (list string))
  : M (list EconomicIndicator) :=
  let* countries := countries_or_default countries in
  collect_indicator "Interest Rate" countries.

Definition get_gdp_growth (countries : option (list string))
  : M (list EconomicIndicator) :=
  let* countries := countries_or_default countries in
  collect_indicator "GDP Growth Rate" countries.

Definition get_inflation_rates (countries : option (list string))
  : M (list EconomicIndicator) :=
  let* countries := countries_or_default countries in
  collect_indicator "Inflation Rate" countries.

Definition get_unemployment_rates (countries : option (list string))
  : M (list EconomicIndicator) :=
  let* countries := countries_or_default countries in
  collect_indicator "Unemployment Rate" countries.

Definition try_pair (base quote : string) (pairs : list CurrencyPairData)
  : M (list CurrencyPairData) :=
  try_except
    (let* pair_data := get_currency_pair_data base quote in
     ret (pairs ++ [pair_data])%list)
    (λ _, ret pairs).

Definition get_all_major_currency_pairs : M (list CurrencyPairData) :=
  for_each base_currencies
    (λ base pairs,
       for_each major_currencies
         (λ quote pairs,
            if decide (base ≠ quote) then try_pair base quote pairs
            else ret pairs)
         pairs)
    [].

(** What a route answers with. *)
Inductive response :=
  | RootInfo (info : root_info)
  | CountryNames (names : list cell)
  | CurrencyCodes (codes : list string)
  | CountryData (data : CountryEconomicData)
  | PairData (pair : CurrencyPairData)
  | IndicatorList (entries : list EconomicIndicator)
  | PairList (pairs : list CurrencyPairData)
  | HealthReport (report : health_report).

Definition answer {A} (wrap : A → response) (handler : M A) : M response :=
  let* a := handler in ret (wrap a).

(** The route table of the application. *)
Definition serve (req : request) : M response :=
  match req with
  | Root => answer RootInfo root
  | Countries => answer CountryNames get_available_countries
  | Currencies => answer CurrencyCodes get_available_currencies
  | Indicators country => answer CountryData (get_country_indicators country)
  | CurrencyPair base quote =>
      answer PairData (get_currency_pair_data base quote)
  | InterestRates countries =>
      answer IndicatorList (get_interest_rates countries)
  | GdpGrowth countries => answer IndicatorList (get_gdp_growth countries)
  | Inflation countries =>
      answer IndicatorList (get_inflation_rates countries)
  | Unemployment countries =>
      answer IndicatorList (get_unemployment_rates countries)
  | AllCurrencyPairs => answer PairList get_all_major_currency_pairs
  | Health => answer HealthReport health_check
  end.

(** The state a sequence of requests, served one after the other, leaves;
    a request that ends in an exception leaves the state it reached. *)
Definition serve_all (reqs : list request) (s : state (module_state W0))
  : state (module_state W0) :=
  foldl (λ s req, (serve req s).2) s reqs.

(** A computation that leaves the module's dict as it found it. *)
Definition keeps_table {A} (m : M A) : Prop :=
  ∀ s, currency_country_map (world (m s).2) = currency_country_map (world s).

End Live.
End Live.

(** * Properties *)

Section Properties.
Context `{RT : Runtime} {W : Type} `{PR : !Provider W}.

Implicit Types (s : state W) (country indicator label : string).

(** ** The indicator fetcher *)

Lemma last_is_Some {A} (l : list A) : l ≠ [] → is_Some (last l).
Proof.
  induction l as [|x [|y l] IH]; intros Hne; [done|by eexists|].
  apply IH. discriminate.
Qed.

Lemma df_nonempty_last (df : DataFrame) :
  df_empty df = false → ∃ row, last (df_rows df) = Some row.
Proof.
  unfold df_empty. intros Hne.
  apply (last_is_Some (df_rows df)).
  intros Hnil. rewrite Hnil in Hne. discriminate.
Qed.

(** The fetcher never raises: it makes one provider call and turns the
    answer into a dict or into [None]. *)
Lemma safe_get_indicator_data_eq country indicator s :
  safe_get_indicator_data country indicator s =
    (Returned
       (dict_of_response country indicator
          (te_getIndicatorData country indicator (world s)).1),
     mkState (te_getIndicatorData country indicator (world s)).2
       (te_calls s ++ [(country, indicator)])%list).
Proof.
  unfold safe_get_indicator_data, try_except, bind, getIndicatorData.
  destruct (te_getIndicatorData country indicator (world s)) as [r w'].
  destruct r as [msg|[df|]]; simpl; try reflexivity.
  destruct (df_empty df) eqn:Hempty; simpl; [reflexivity|].
  destruct (df_nonempty_last df Hempty) as [row Hrow].
  unfold iloc_last. rewrite Hrow. reflexivity.
Qed.

Lemma fetched_eq country indicator s :
  fetched country indicator s =
    (dict_of_response country indicator
       (te_getIndicatorData country indicator (world s)).1,
     mkState (te_getIndicatorData country indicator (world s)).2
       (te_calls s ++ [(country, indicator)])%list).
Proof. unfold fetched. by rewrite safe_get_indicator_data_eq. Qed.

Lemma safe_get_fetched country indicator s :
  safe_get_indicator_data country indicator s =
    (Returned (fetched country indicator s).1,
     (fetched country indicator s).2).
Proof. by rewrite fetched_eq, safe_get_indicator_data_eq. Qed.

Lemma dict_of_response_fails country indicator r :
  te_fails r ↔ dict_of_response country indicator r = None.
Proof.
  destruct r as [msg|[df|]]; simpl; try done.
  destruct (df_empty df) eqn:Hempty; [done|].
  destruct (df_nonempty_last df Hempty) as [row Hrow].
  unfold iloc_last. rewrite Hrow. simpl. split; discriminate.
Qed.

(** The fetches of a run are the provider's answers to the same calls. *)
Lemma fetch_all_provider_run (calls : list (string * string)) s :
  (fetch_all calls s).1 =
    zip_with (λ ci r, dict_of_response ci.1 ci.2 r) calls
      (provider_run calls (world s)).1
  ∧ world (fetch_all calls s).2 = (provider_run calls (world s)).2
  ∧ te_calls (fetch_all calls s).2 = (te_calls s ++ calls)%list.
Proof.
  revert s. induction calls as [|[c i] calls IH]; intros s; simpl.
  - by rewrite app_nil_r.
  - rewrite fetched_eq.
    destruct (te_getIndicatorData c i (world s)) as [r w1]; simpl.
    specialize (IH (mkState w1 (te_calls s ++ [(c, i)])%list)).
    simpl in IH. destruct IH as (IH1 & IH2 & IH3).
    destruct (fetch_all calls _) as [ods s2].
    destruct (provider_run calls w1) as [rs w2]; simpl in *.
    rewrite IH1, IH2, IH3, <- app_assoc. done.
Qed.

Lemma fetch_all_length (calls : list (string * string)) s :
  length (fetch_all calls s).1 = length calls.
Proof.
  revert s. induction calls as [|[c i] calls IH]; intros s; simpl; [done|].
  destruct (fetched c i s) as [od s1]. specialize (IH s1).
  destruct (fetch_all calls s1) as [ods s2]. simpl in *. by rewrite IH.
Qed.

Lemma fetch_all_failed (calls : list (string * string)) s :
  Forall te_fails (provider_run calls (world s)).1 →
  (fetch_all calls s).1 = replicate (length calls) None.
Proof.
  revert s. induction calls as [|[c i] calls IH]; intros s; simpl; [done|].
  rewrite fetched_eq.
  destruct (te_getIndicatorData c i (world s)) as [r w1]; simpl.
  specialize (IH (mkState w1 (te_calls s ++ [(c, i)])%list)). simpl in IH.
  destruct (provider_run calls w1) as [rs w2]; simpl in *.
  destruct (fetch_all calls _) as [ods s2]; simpl in *.
  intros Hall. apply Forall_cons in Hall as [Hr Hrs].
  rewrite (IH Hrs). f_equal. by apply dict_of_response_fails.
Qed.

(** ** Running the monad *)

Lemma bind_returned {A B} (m : M A) (k : A → M B) s a s' :
  m s = (Returned a, s') → bind m k s = k a s'.
Proof. unfold bind. by intros ->. Qed.

Lemma try_except_returned {A} (m : M A) (h : exn → M A) s a s' :
  m s = (Returned a, s') → try_except m h s = (Returned a, s').
Proof. unfold try_except. by intros ->. Qed.

(** One turn of the aggregator's loop, when the fetch is usable. *)
Lemma slot_step country indicator key
    (data : list (string * option EconomicIndicator)) s :
  slot_ok (fetched country indicator s).1 →
  bind (safe_get_indicator_data country indicator)
    (λ indicator_data,
       match indicator_data with
       | Some d =>
           bind (EconomicIndicator_new d)
             (λ e, ret (dict_set data key (Some e)))
       | None => ret (dict_set data key None)
       end) s
  = (Returned (dict_set data key (slot_of (fetched country indicator s).1)),
     (fetched country indicator s).2).
Proof.
  intros Hok. rewrite (bind_returned _ _ _ _ _ (safe_get_fetched _ _ _)).
  destruct (fetched country indicator s) as [[d|] s1]; simpl in *; [|done].
  destruct Hok as [e He]. unfold EconomicIndicator_new, bind.
  by rewrite He.
Qed.

(** The aggregator, when each of its four fetches is usable: the fetches
    fill the four slots in order, then the clock is read. *)
Lemma get_country_economic_data_spec country s :
  Forall slot_ok (fetch_all (indicator_calls country) s).1 →
  ∃ ir gdp infl unemp,
    slot_of <$> (fetch_all (indicator_calls country) s).1
      = [ir; gdp; infl; unemp] ∧
    get_country_economic_data country s =
      (Returned
         {| ced_country := country;
            interest_rate := ir;
            gdp_growth := gdp;
            inflation_rate := infl;
            unemployment_rate := unemp;
            last_updated :=
              (datetime_now_isoformat
                 (world (fetch_all (indicator_calls country) s).2)).1 |},
       mkState
         (datetime_now_isoformat
            (world (fetch_all (indicator_calls country) s).2)).2
         (te_calls (fetch_all (indicator_calls country) s).2)).
Proof.
  unfold indicator_calls, indicators, get_country_economic_data.
  simpl fmap. simpl fetch_all. simpl for_each.
  destruct (fetched country "Interest Rate" s) as [od1 s1] eqn:E1.
  destruct (fetched country "GDP Growth Rate" s1) as [od2 s2] eqn:E2.
  destruct (fetched country "Inflation Rate" s2) as [od3 s3] eqn:E3.
  destruct (fetched country "Unemployment Rate" s3) as [od4 s4] eqn:E4.
  simpl. intros Hok.
  apply Forall_cons in Hok as [H1 Hok]. apply Forall_cons in Hok as [H2 Hok].
  apply Forall_cons in Hok as [H3 Hok]. apply Forall_cons in Hok as [H4 _].
  exists (slot_of od1), (slot_of od2), (slot_of od3), (slot_of od4).
  split; [reflexivity|].
  pose proof (slot_step country "Interest Rate" "interest_rate" [] s) as S1.
  rewrite E1 in S1. specialize (S1 H1).
  pose proof (slot_step country "GDP Growth Rate" "gdp_growth"
                [("interest_rate", slot_of od1)] s1) as S2.
  rewrite E2 in S2. specialize (S2 H2).
  pose proof (slot_step country "Inflation Rate" "inflation_rate"
                [("interest_rate", slot_of od1); ("gdp_growth", slot_of od2)]
                s2) as S3.
  rewrite E3 in S3. specialize (S3 H3).
  pose proof (slot_step country "Unemployment Rate" "unemployment_rate"
                [("interest_rate", slot_of od1); ("gdp_growth", slot_of od2);
                 ("inflation_rate", slot_of od3)] s3) as S4.
  rewrite E4 in S4. specialize (S4 H4).
  simpl in S1, S2, S3, S4.
  erewrite bind_returned; [|].
  2:{ erewrite bind_returned by exact S1.
      erewrite bind_returned by exact S2.
      erewrite bind_returned by exact S3.
      erewrite bind_returned by exact S4.
      reflexivity. }
  unfold bind, datetime_now. simpl.
  destruct (datetime_now_isoformat (world s4)) as [t w5]. reflexivity.
Qed.

(** ** The country aggregator and [/indicators/{country}] *)

(** C1 (amended).  For every country name, when each of the four indicator
    fetches is absent or yields a row that validates as an
    [EconomicIndicator] (in particular when all four fail),
    [get_country_economic_data] returns a record with the input country,
    the four slots filled from the fetches in order, and the timestamp read
    from the clock after the fourth fetch; it makes exactly the four
    provider calls. *)
Theorem get_country_economic_data_returns country s :
  Forall slot_ok (fetch_all (indicator_calls country) s).1 →
  ∃ ir gdp infl unemp t s',
    get_country_economic_data country s =
      (Returned
         {| ced_country := country; interest_rate := ir; gdp_growth := gdp;
            inflation_rate := infl; unemployment_rate := unemp;
            last_updated := t |}, s')
    ∧ slot_of <$> (fetch_all (indicator_calls country) s).1
        = [ir; gdp; infl; unemp]
    ∧ t = (datetime_now_isoformat
             (world (fetch_all (indicator_calls country) s).2)).1
    ∧ te_calls s' = (te_calls s ++ indicator_calls country)%list.
Proof.
  intros Hok.
  destruct (get_country_economic_data_spec country s Hok)
    as (ir & gdp & infl & unemp & Hslots & Hrun).
  eexists ir, gdp, infl, unemp, _, _.
  split; [exact Hrun|]. split; [exact Hslots|]. split; [reflexivity|].
  exact (proj2 (proj2 (fetch_all_provider_run (indicator_calls country) s))).
Qed.

(** C4.  For every country, if the provider call fails (raises, returns
    [None] or returns an empty frame) for all four indicators,
    [/indicators/{country}] answers 200 with a record whose four indicator
    slots are absent. *)
Theorem get_country_indicators_all_failed country s :
  Forall te_fails (provider_run (indicator_calls country) (world s)).1 →
  ∃ t s',
    get_country_indicators country s =
      (Returned
         {| ced_country := country; interest_rate := None;
            gdp_growth := None; inflation_rate := None;
            unemployment_rate := None; last_updated := t |}, s')
    ∧ http_status (get_country_indicators country s).1 = 200.
Proof.
  intros Hfail. apply fetch_all_failed in Hfail as Hnone.
  assert (Forall slot_ok (fetch_all (indicator_calls country) s).1) as Hok.
  { rewrite Hnone. apply Forall_replicate. exact I. }
  destruct (get_country_economic_data_spec country s Hok)
    as (ir & gdp & infl & unemp & Hslots & Hrun).
  rewrite Hnone in Hslots. simpl in Hslots.
  injection Hslots as <- <- <- <-.
  assert (get_country_indicators country s = get_country_economic_data country s)
    as Heq.
  { unfold get_country_indicators.
    erewrite try_except_returned; [symmetry; exact Hrun|].
    erewrite bind_returned by exact Hrun. reflexivity. }
  rewrite Heq, Hrun. eauto.
Qed.

Lemma series_get_missing (cols : list string) (row : list cell)
    (key : string) (default : cell) :
  key ∉ cols → series_get (zip cols row) key default = default.
Proof.
  revert row. induction cols as [|c cols IH]; intros row Hout; [done|].
  destruct row as [|v row]; [done|]. simpl.
  apply not_elem_of_cons in Hout as [Hne Hout].
  rewrite decide_False by done. by apply IH.
Qed.

(** [Series.get] on a row: the cell under the first column that carries
    the label. *)
Lemma series_get_lookup (cols : list string) (row : list cell)
    (key : string) (default : cell) (i : nat) (v : cell) :
  cols !! i = Some key →
  (∀ j, (j < i)%nat → cols !! j ≠ Some key) →
  row !! i = Some v →
  series_get (zip cols row) key default = v.
Proof.
  revert row i. induction cols as [|c cols IH]; intros row i Hi Hfirst Hv.
  - by rewrite lookup_nil in Hi.
  - destruct row as [|v0 row]; [by rewrite lookup_nil in Hv|]. simpl.
    destruct i as [|i]; simpl in Hi, Hv.
    + simplify_eq. by rewrite decide_True.
    + rewrite decide_False.
      * apply (IH row i Hi); [|done].
        intros j Hj. apply (Hfirst (S j)). lia.
      * intros ->. by apply (Hfirst 0%nat); [lia|].
Qed.

(** C5.  When the provider returns a non-empty frame, the fetcher returns a
    record read off the frame's last row: each field holds the cell of
    that row under its column ([Country], [LastUpdate], [PreviousValue],
    [Unit], [Frequency]), or its default when the frame has no such
    column, and [value] is taken from the [LastUpdate] column.  The
    fetcher returns a record in no other case, so in every record it
    returns [value] equals [last_update]. *)
Theorem safe_get_indicator_data_latest country indicator s :
  (∀ df, (te_getIndicatorData country indicator (world s)).1
           = TeReturns (Some df) →
         df_empty df = false →
         ∃ row d,
           last (df_rows df) = Some row
           ∧ (safe_get_indicator_data country indicator s).1
             = Returned (Some d)
           ∧ d_indicator d = indicator
           ∧ d_value d = d_last_update d
           ∧ (∀ i key v,
                df_columns df !! i = Some key →
                (∀ j, (j < i)%nat → df_columns df !! j ≠ Some key) →
                row !! i = Some v →
                (key = "Country" → d_country d = v)
                ∧ (key = "LastUpdate" → d_value d = v ∧ d_last_update d = v)
                ∧ (key = "PreviousValue" → d_previous_value d = v)
                ∧ (key = "Unit" → d_unit d = v)
                ∧ (key = "Frequency" → d_frequency d = v))
           ∧ ("Country" ∉ df_columns df → d_country d = PyStr country)
           ∧ ("LastUpdate" ∉ df_columns df →
              d_value d = PyNone ∧ d_last_update d = PyNone)
           ∧ ("PreviousValue" ∉ df_columns df → d_previous_value d = PyNone)
           ∧ ("Unit" ∉ df_columns df → d_unit d = PyNone)
           ∧ ("Frequency" ∉ df_columns df → d_frequency d = PyNone))
  ∧ (∀ d, (safe_get_indicator_data country indicator s).1
            = Returned (Some d) →
          d_value d = d_last_update d
          ∧ ∃ df,
              (te_getIndicatorData country indicator (world s)).1
                = TeReturns (Some df)
              ∧ df_empty df = false).
Proof.
  rewrite safe_get_indicator_data_eq. simpl. split.
  - intros df -> Hne. destruct (df_nonempty_last df Hne) as [row Hrow].
    exists row. simpl. rewrite Hne. unfold iloc_last. rewrite Hrow. simpl.
    eexists. split; [done|]. split; [reflexivity|]. simpl.
    split; [reflexivity|]. split; [reflexivity|]. split.
    { intros i key v Hi Hfirst Hv.
      pose proof (λ default,
                    series_get_lookup _ _ key default i v Hi Hfirst Hv)
        as Hget.
      split; [intros ->; apply Hget|].
      split; [intros ->; split; apply Hget|].
      split; [intros ->; apply Hget|].
      split; intros ->; apply Hget. }
    split; [intros Hout; by apply series_get_missing|].
    split; [intros Hout; split; by apply series_get_missing|].
    split; [intros Hout; by apply series_get_missing|].
    split; intros Hout; by apply series_get_missing.
  - intros d Hd. injection Hd as Hd.
    destruct (te_getIndicatorData country indicator (world s)).1
      as [msg|[df|]]; simpl in Hd; try discriminate.
    destruct (df_empty df) eqn:Hne; [discriminate|].
    destruct (df_nonempty_last df Hne) as [row Hrow].
    unfold iloc_last in Hd. rewrite Hrow in Hd. simpl in Hd.
    injection Hd as <-. split; [reflexivity|]. by exists df.
Qed.

(** ** The static table, [/currencies] and [/currency-pairs/{base}/{quote}] *)

Lemma dict_contains_keys {V} (d : list (string * V)) (key : string) :
  dict_contains d key = true ↔ key ∈ dict_keys d.
Proof.
  unfold dict_contains, dict_keys.
  induction d as [|[k v] d IH]; simpl.
  - split; [discriminate|]. by intros ?%elem_of_nil.
  - rewrite elem_of_cons. destruct (decide (k = key)) as [->|Hne].
    + split; auto.
    + rewrite IH. split; [auto|]. intros [Heq|Hin]; [congruence|done].
Qed.

Lemma dict_contains_get {V} (d : list (string * V)) (key : string) :
  dict_contains d key = true → ∃ v, dict_get d key = Some v.
Proof.
  unfold dict_contains. destruct (dict_get d key); [eauto|discriminate].
Qed.

(** The composer on two supported codes: the two table look-ups succeed
    and the [try] block runs. *)
Lemma get_currency_pair_data_supported base quote base_country quote_country s :
  dict_get CURRENCY_COUNTRY_MAP (str_upper base) = Some base_country →
  dict_get CURRENCY_COUNTRY_MAP (str_upper quote) = Some quote_country →
  get_currency_pair_data base quote s =
    try_except
      (bind (get_country_economic_data base_country) (λ base_data,
       bind (get_country_economic_data quote_country) (λ quote_data,
       ret {| base_currency := str_upper base;
              quote_currency := str_upper quote;
              base_country_data := base_data;
              quote_country_data := quote_data |})))
      (λ _, raise (HTTPException 500 "Error fetching currency pair data")) s.
Proof.
  intros Hb Hq. unfold get_currency_pair_data, dict_contains.
  rewrite Hb, Hq. reflexivity.
Qed.

(** C2.  If the uppercased base or the uppercased quote is not a key of the
    static table, the composer raises [HTTPException] 404, whatever the
    other code is, and leaves the state as it found it: no provider call
    is made. *)
Theorem currency_pair_unsupported_404 base quote s :
  str_upper base ∉ dict_keys CURRENCY_COUNTRY_MAP
  ∨ str_upper quote ∉ dict_keys CURRENCY_COUNTRY_MAP →
  ∃ detail,
    get_currency_pair_data base quote s = (Raised (HTTPException 404 detail), s)
    ∧ http_status (get_currency_pair_data base quote s).1 = 404
    ∧ te_calls (get_currency_pair_data base quote s).2 = te_calls s.
Proof.
  intros Hunsupported. unfold get_currency_pair_data.
  destruct (dict_contains CURRENCY_COUNTRY_MAP (str_upper base)) eqn:Hb.
  - destruct (dict_contains CURRENCY_COUNTRY_MAP (str_upper quote)) eqn:Hq.
    + apply dict_contains_keys in Hb, Hq. tauto.
    + by eexists.
  - by eexists.
Qed.

(** [/currencies] on the table as written in the source: its 24 keys in
    the table's order, whatever the state of the provider. *)
Lemma get_available_currencies_keys s :
  get_available_currencies s =
    (Returned
       ["USD"; "EUR"; "GBP"; "JPY"; "CHF"; "CAD"; "AUD"; "NZD"; "SEK"; "NOK";
        "DKK"; "PLN"; "CZK"; "HUF"; "SGD"; "HKD"; "KRW"; "CNY"; "INR"; "BRL";
        "MXN"; "ZAR"; "RUB"; "TRY"], s)
  ∧ (get_available_currencies s).1 = Returned (dict_keys CURRENCY_COUNTRY_MAP)
  ∧ length (dict_keys CURRENCY_COUNTRY_MAP) = 24
  ∧ NoDup (dict_keys CURRENCY_COUNTRY_MAP).
Proof.
  repeat split. apply (bool_decide_unpack _). by vm_compute.
Qed.

(** C7.  For inputs whose uppercase forms are both keys of the table, the
    composer either returns a [CurrencyPairData] whose [base_currency] and
    [quote_currency] are the uppercased inputs, or raises [HTTPException]
    500; it returns whenever the two aggregations do. *)
Theorem currency_pair_codes_uppercased base quote s :
  str_upper base ∈ dict_keys CURRENCY_COUNTRY_MAP →
  str_upper quote ∈ dict_keys CURRENCY_COUNTRY_MAP →
  match get_currency_pair_data base quote s with
  | (Returned p, _) =>
      base_currency p = str_upper base ∧ quote_currency p = str_upper quote
  | (Raised e, _) => e = HTTPException 500 "Error fetching currency pair data"
  end
  ∧ ∃ base_country quote_country,
      dict_get CURRENCY_COUNTRY_MAP (str_upper base) = Some base_country
      ∧ dict_get CURRENCY_COUNTRY_MAP (str_upper quote) = Some quote_country
      ∧ ∀ base_data s1 quote_data s2,
          get_country_economic_data base_country s = (Returned base_data, s1) →
          get_country_economic_data quote_country s1
            = (Returned quote_data, s2) →
          get_currency_pair_data base quote s =
            (Returned {| base_currency := str_upper base;
                         quote_currency := str_upper quote;
                         base_country_data := base_data;
                         quote_country_data := quote_data |}, s2).
Proof.
  intros Hb%dict_contains_keys%dict_contains_get
         Hq%dict_contains_keys%dict_contains_get.
  destruct Hb as [bc Hb], Hq as [qc Hq].
  rewrite (get_currency_pair_data_supported _ _ _ _ s Hb Hq).
  split.
  - unfold try_except, bind, ret, raise.
    destruct (get_country_economic_data bc s) as [[bd|e1] s1]; [|done].
    destruct (get_country_economic_data qc s1) as [[qd|e2] s2]; done.
  - exists bc, qc. split; [done|]. split; [done|].
    intros bd s1 qd s2 H1 H2.
    unfold try_except, bind, ret. by rewrite H1, H2.
Qed.


(** ** The list endpoints *)

(** C9.  On each of the four list endpoints an empty [countries] list
    behaves as an omitted one: both run the endpoint's loop over the first
    10 values of the static table. *)
Theorem empty_countries_same_as_omitted s :
  get_interest_rates (Some []) s = get_interest_rates None s
  ∧ get_gdp_growth (Some []) s = get_gdp_growth None s
  ∧ get_inflation_rates (Some []) s = get_inflation_rates None s
  ∧ get_unemployment_rates (Some []) s = get_unemployment_rates None s
  ∧ get_interest_rates (Some []) s
      = collect_indicator "Interest Rate" default_countries s
  ∧ get_gdp_growth (Some []) s
      = collect_indicator "GDP Growth Rate" default_countries s
  ∧ get_inflation_rates (Some []) s
      = collect_indicator "Inflation Rate" default_countries s
  ∧ get_unemployment_rates (Some []) s
      = collect_indicator "Unemployment Rate" default_countries s
  ∧ default_countries = take 10 (dict_values CURRENCY_COUNTRY_MAP).
Proof. repeat split. Qed.

Lemma omap_length_le {A B} (f : A → option B) (l : list A) :
  (length (omap f l) ≤ length l)%nat.
Proof.
  induction l as [|x l IH]; [done|].
  change (omap f (x :: l)) with
    (match f x with Some y => y :: omap f l | None => omap f l end).
  destruct (f x); simpl; lia.
Qed.

Lemma successes_counted (ods : list (option indicator_dict)) :
  Forall slot_ok ods →
  length (omap slot_of ods) = length (filter is_Some ods).
Proof.
  induction 1 as [|od ods Hok _ IH]; [done|].
  rewrite filter_cons.
  change (omap slot_of (od :: ods)) with
    (match slot_of od with
     | Some e => e :: omap slot_of ods
     | None => omap slot_of ods
     end).
  destruct od as [d|]; simpl in *.
  - destruct Hok as [e He]. rewrite He.
    destruct (decide (is_Some (Some d))) as [_|Hno]; simpl.
    + by rewrite IH.
    + destruct Hno. by eexists.
  - destruct (decide (is_Some (@None indicator_dict))) as [[? ?]|_];
      [discriminate|done].
Qed.

(** The loop of a list endpoint, when every fetch is usable: one fetch per
    country in order, one entry appended per fetch that brought a row. *)
Lemma collect_indicator_loop label (countries : list string)
    (results : list EconomicIndicator) s :
  Forall slot_ok (fetch_all (list_calls label countries) s).1 →
  for_each countries
    (λ country results,
       bind (safe_get_indicator_data country label)
         (λ data,
            match data with
            | Some d =>
                bind (EconomicIndicator_new d)
                  (λ e, ret (results ++ [e])%list)
            | None => ret results
            end))
    results s
  = (Returned
       (results ++ omap slot_of (fetch_all (list_calls label countries) s).1)%list,
     (fetch_all (list_calls label countries) s).2).
Proof.
  revert results s.
  induction countries as [|c cs IH]; intros results s; simpl.
  - intros _. by rewrite app_nil_r.
  - pose proof (safe_get_fetched c label s) as Hget.
    destruct (fetched c label s) as [od s1]. simpl in Hget.
    specialize (IH (results ++ from_option (λ e, [e]) [] (slot_of od))%list s1).
    fold (list_calls label cs) in *.
    destruct (fetch_all (list_calls label cs) s1) as [ods s2]. simpl in *.
    intros Hok. apply Forall_cons in Hok as [Hod Hods].
    specialize (IH Hods).
    erewrite bind_returned; [rewrite IH|].
    + f_equal. rewrite <- app_assoc. f_equal.
      unfold omap. simpl. by destruct (slot_of od).
    + erewrite bind_returned by exact Hget.
      destruct od as [d|]; simpl in *.
      * destruct Hod as [e He]. unfold EconomicIndicator_new, bind.
        by rewrite He.
      * by rewrite app_nil_r.
Qed.

(** C8 (amended).  Without a [countries] parameter, and when every fetch
    that brings a row brings one that validates as an [EconomicIndicator],
    [/interest-rates] fetches the first 10 values of the static table in
    order and nothing else, returns one entry per country whose fetch
    succeeded, in that order, omits the countries whose fetch failed, and
    so returns at most 10 entries. *)
Theorem get_interest_rates_default s :
  Forall slot_ok
    (fetch_all (list_calls "Interest Rate"
                  (take 10 (dict_values CURRENCY_COUNTRY_MAP))) s).1 →
  ∃ ods s',
    fetch_all (list_calls "Interest Rate"
                 (take 10 (dict_values CURRENCY_COUNTRY_MAP))) s = (ods, s')
    ∧ get_interest_rates None s = (Returned (omap slot_of ods), s')
    ∧ te_calls s' =
        (te_calls s ++
         list_calls "Interest Rate"
           (take 10 (dict_values CURRENCY_COUNTRY_MAP)))%list
    ∧ length ods = 10
    ∧ length (omap slot_of ods) = length (filter is_Some ods)
    ∧ (length (omap slot_of ods) ≤ 10)%nat.
Proof.
  intros Hok.
  pose proof (collect_indicator_loop "Interest Rate"
                (take 10 (dict_values CURRENCY_COUNTRY_MAP)) [] s Hok) as Hrun.
  pose proof (fetch_all_provider_run
                (list_calls "Interest Rate"
                   (take 10 (dict_values CURRENCY_COUNTRY_MAP))) s)
    as (_ & _ & Hcalls).
  pose proof (fetch_all_length
                (list_calls "Interest Rate"
                   (take 10 (dict_values CURRENCY_COUNTRY_MAP))) s) as Hlen.
  destruct (fetch_all _ s) as [ods s'] eqn:Hfetch. simpl in *.
  exists ods, s'. split; [done|]. split; [exact Hrun|]. split; [exact Hcalls|].
  split; [exact Hlen|]. split; [by apply successes_counted|].
  rewrite <- Hlen. apply omap_length_le.
Qed.

(** ** [/all-currency-pairs] *)

Lemma for_each_app {X S} (xs ys : list X) (body : X → S → M S) acc s :
  for_each (xs ++ ys) body acc s
  = bind (for_each xs body acc) (for_each ys body) s.
Proof.
  revert acc s. induction xs as [|x xs IH]; intros acc s; simpl;
    [reflexivity|].
  unfold bind. destruct (body x acc s) as [[acc'|e] s']; [|reflexivity].
  rewrite IH. reflexivity.
Qed.

Lemma for_each_guarded {X Y S} (P : X → Y → Prop) `{∀ x y, Decision (P x y)}
    (x : X) (ys : list Y) (body : X → Y → S → M S) acc s :
  for_each ys (λ y acc, if decide (P x y) then body x y acc else ret acc) acc s
  = for_each (pair x <$> filter (P x) ys) (λ xy, body xy.1 xy.2) acc s.
Proof.
  revert acc s. induction ys as [|y ys IH]; intros acc s; simpl; [done|].
  rewrite filter_cons. destruct (decide (P x y)); simpl.
  - unfold bind. destruct (body x y acc s) as [[acc'|e] s']; [apply IH|done].
  - apply IH.
Qed.

(** A nested loop with a guard is one loop over the guarded combinations. *)
Lemma for_each_nested {X Y S} (P : X → Y → Prop) `{∀ x y, Decision (P x y)}
    (xs : list X) (ys : list Y) (body : X → Y → S → M S) acc s :
  for_each xs
    (λ x acc,
       for_each ys
         (λ y acc, if decide (P x y) then body x y acc else ret acc) acc)
    acc s
  = for_each (flat_map (λ x, pair x <$> filter (P x) ys) xs)
      (λ xy, body xy.1 xy.2) acc s.
Proof.
  revert acc s. induction xs as [|x xs IH]; intros acc s; simpl; [done|].
  rewrite for_each_app. unfold bind. rewrite for_each_guarded.
  destruct (for_each (pair x <$> filter (P x) ys) _ acc s) as [[acc'|e] s'];
    [apply IH|done].
Qed.

Lemma for_each_try_pair (combos : list (string * string))
    (pairs : list CurrencyPairData) s :
  for_each combos (λ xy, try_pair xy.1 xy.2) pairs s
  = (Returned (sweep combos pairs s).1, (sweep combos pairs s).2).
Proof.
  revert pairs s.
  induction combos as [|[b q] combos IH]; intros pairs s; simpl; [done|].
  unfold bind, try_pair, try_except, bind.
  destruct (get_currency_pair_data b q s) as [[p|e] s']; simpl; apply IH.
Qed.

(** C3.  [/all-currency-pairs] goes through the 18 combinations of a base
    in USD, EUR, GBP with a different quote in USD, EUR, GBP, JPY, CHF,
    CAD, AUD, calls the composer once for each, in order, drops the
    combinations whose call raises, never raises itself, and answers 200
    with the pairs of the calls that returned. *)
Theorem get_all_major_currency_pairs_sweep s :
  get_all_major_currency_pairs s =
    (Returned (sweep sweep_combinations [] s).1,
     (sweep sweep_combinations [] s).2)
  ∧ http_status (get_all_major_currency_pairs s).1 = 200
  ∧ length sweep_combinations = 18
  ∧ NoDup sweep_combinations
  ∧ ∀ base quote,
      (base, quote) ∈ sweep_combinations ↔
      base ∈ ["USD"; "EUR"; "GBP"]
      ∧ quote ∈ ["USD"; "EUR"; "GBP"; "JPY"; "CHF"; "CAD"; "AUD"]
      ∧ base ≠ quote.
Proof.
  assert (get_all_major_currency_pairs s =
            (Returned (sweep sweep_combinations [] s).1,
             (sweep sweep_combinations [] s).2)) as Hrun.
  { unfold get_all_major_currency_pairs.
    rewrite (for_each_nested (λ base quote : string, base ≠ quote)).
    rewrite for_each_try_pair. reflexivity. }
  split; [exact Hrun|]. split; [by rewrite Hrun|]. split; [reflexivity|].
  split; [apply (bool_decide_unpack _); by vm_compute|].
  intros base quote.
  change sweep_combinations with
    (flat_map (λ b, pair b <$> filter (λ q, b ≠ q) major_currencies)
       base_currencies).
  rewrite list_elem_of_In, in_flat_map. split.
  - intros (b & Hb & Hin).
    apply list_elem_of_In, list_elem_of_fmap in Hin as (q & Heq & Hq).
    injection Heq as -> ->. apply list_elem_of_filter in Hq as [Hne Hq].
    by apply list_elem_of_In in Hb.
  - intros (Hb & Hq & Hne). exists base. split; [by apply list_elem_of_In|].
    apply list_elem_of_In, list_elem_of_fmap. exists quote. split; [done|].
    by apply list_elem_of_filter.
Qed.

End Properties.

(** * The handlers at work on the reference runtime and a scripted provider *)

Section Runs.

(** Run the list under a [Forall] and check its elements one by one. *)
Ltac usable :=
  match goal with
  | |- Forall ?P ?l =>
      let l' := eval vm_compute in l in
      change (Forall P l');
      repeat first [apply Forall_nil | apply Forall_cons_2];
      first [exact I | reflexivity | (eexists; reflexivity)]
  end.

Ltac computed := apply (bool_decide_unpack _); vm_compute; exact I.

(** Japan's four fetches: a frame with numbers, a time-out, [None], and a
    script that has run out. *)
Lemma get_country_economic_data_returns_witness :
  Forall slot_ok
    (fetch_all (indicator_calls "Japan")
       (start [TeReturns (Some numeric_frame); TeRaises "timed out";
               TeReturns None])).1
  ∧ ∃ ir r s',
      get_country_economic_data "Japan"
        (start [TeReturns (Some numeric_frame); TeRaises "timed out";
                TeReturns None]) = (Returned r, s')
      ∧ ced_country r = "Japan"
      ∧ interest_rate r = Some ir
      ∧ gdp_growth r = None
      ∧ last_updated r = "2024-01-31T12:00:00"
      ∧ length (te_calls s') = 4.
Proof.
  assert (Forall slot_ok
            (fetch_all (indicator_calls "Japan")
               (start [TeReturns (Some numeric_frame); TeRaises "timed out";
                       TeReturns None])).1) as Hok by usable.
  split; [exact Hok|].
  destruct (get_country_economic_data_returns "Japan" _ Hok)
    as (ir & gdp & infl & unemp & t & s' & Hrun & Hslots & Ht & Hcalls).
  vm_compute in Hslots. injection Hslots as <- <- <- <-.
  eexists _, _, s'. split; [exact Hrun|]. simpl.
  split; [done|]. split; [done|]. split; [done|]. split; [by rewrite Ht|].
  by rewrite Hcalls.
Defined.

(** The provider's own row for the United States carries a date in
    [LastUpdate]; it ends up in [value], a float field, and the aggregator
    raises. *)
Lemma get_country_economic_data_raises :
  (get_country_economic_data "United States"
     (start [TeReturns (Some us_rate_frame)])).1 = Raised ValidationError
  ∧ ¬ ∃ r s',
        get_country_economic_data "United States"
          (start [TeReturns (Some us_rate_frame)]) = (Returned r, s').
Proof.
  split; [reflexivity|]. intros (r & s' & Hrun).
  vm_compute in Hrun. discriminate.
Qed.

Lemma currency_pair_unsupported_404_witness :
  (str_upper "usd" ∉ dict_keys CURRENCY_COUNTRY_MAP
   ∨ str_upper "xyz" ∉ dict_keys CURRENCY_COUNTRY_MAP)
  ∧ ∃ detail,
      get_currency_pair_data "usd" "xyz" (start [])
        = (Raised (HTTPException 404 detail), start [])
      ∧ http_status (get_currency_pair_data "usd" "xyz" (start [])).1 = 404
      ∧ te_calls (get_currency_pair_data "usd" "xyz" (start [])).2 = [].
Proof.
  assert (str_upper "usd" ∉ dict_keys CURRENCY_COUNTRY_MAP
          ∨ str_upper "xyz" ∉ dict_keys CURRENCY_COUNTRY_MAP) as Hbad
    by (right; computed).
  split; [exact Hbad|].
  exact (currency_pair_unsupported_404 "usd" "xyz" (start []) Hbad).
Defined.

(** A time-out, [None], a frame without rows, and a script that has run
    out: four failed fetches. *)
Lemma get_country_indicators_all_failed_witness :
  Forall te_fails
    (provider_run (indicator_calls "Canada")
       (world (start [TeRaises "timed out"; TeReturns None;
                      TeReturns (Some {| df_columns := ["Country"];
                                         df_rows := [] |})]))).1
  ∧ ∃ t s',
      get_country_indicators "Canada"
        (start [TeRaises "timed out"; TeReturns None;
                TeReturns (Some {| df_columns := ["Country"];
                                   df_rows := [] |})])
      = (Returned
           {| ced_country := "Canada"; interest_rate := None;
              gdp_growth := None; inflation_rate := None;
              unemployment_rate := None; last_updated := t |}, s')
      ∧ http_status
          (get_country_indicators "Canada"
             (start [TeRaises "timed out"; TeReturns None;
                     TeReturns (Some {| df_columns := ["Country"];
                                        df_rows := [] |})])).1 = 200.
Proof.
  assert (Forall te_fails
            (provider_run (indicator_calls "Canada")
               (world (start [TeRaises "timed out"; TeReturns None;
                              TeReturns (Some {| df_columns := ["Country"];
                                                 df_rows := [] |})]))).1)
    as Hfail by usable.
  split; [exact Hfail|].
  exact (get_country_indicators_all_failed "Canada" _ Hfail).
Defined.

(** The first column that carries the label, in a frame written out. *)
Ltac first_column :=
  let j := fresh "j" in
  let Hj := fresh "Hj" in
  intros j Hj;
  do 8 (try (destruct j as [|j]; [first [done | lia]|]));
  lia.

(** The provider's row for the United States, and the last of the two rows
    of [numeric_frame]: every field holds the cell of that row. *)
Lemma safe_get_indicator_data_latest_witness :
  (te_getIndicatorData "United States" "Interest Rate"
     (world (start [TeReturns (Some us_rate_frame)]))).1
    = TeReturns (Some us_rate_frame)
  ∧ df_empty us_rate_frame = false
  ∧ (∃ d,
       (safe_get_indicator_data "United States" "Interest Rate"
          (start [TeReturns (Some us_rate_frame)])).1 = Returned (Some d)
       ∧ d_country d = PyStr "United States"
       ∧ d_value d = PyStr "2023-07-26T00:00:00"
       ∧ d_last_update d = PyStr "2023-07-26T00:00:00"
       ∧ d_previous_value d
         = PyFloat {| dec_mantissa := 525; dec_scale := 2 |}
       ∧ d_unit d = PyStr "percent"
       ∧ d_frequency d = PyStr "Daily")
  ∧ (∃ d,
       (safe_get_indicator_data "Japan" "Interest Rate"
          (start [TeReturns (Some numeric_frame)])).1 = Returned (Some d)
       ∧ d_previous_value d = PyInt 2
       ∧ d_unit d = PyNone).
Proof.
  assert ((te_getIndicatorData "United States" "Interest Rate"
             (world (start [TeReturns (Some us_rate_frame)]))).1
          = TeReturns (Some us_rate_frame)) as Hus by reflexivity.
  assert (df_empty us_rate_frame = false) as Hne by reflexivity.
  split; [exact Hus|]. split; [exact Hne|]. split.
  - destruct (proj1 (safe_get_indicator_data_latest "United States"
                       "Interest Rate"
                       (start [TeReturns (Some us_rate_frame)]))
                us_rate_frame Hus Hne)
      as (row & d & Hrow & Hrun & _ & _ & Hcells & _).
    injection Hrow as <-. exists d. split; [exact Hrun|].
    split; [apply (Hcells 0%nat "Country"%string);
            [reflexivity|first_column|reflexivity|reflexivity]|].
    split; [apply (Hcells 4%nat "LastUpdate"%string);
            [reflexivity|first_column|reflexivity|reflexivity]|].
    split; [apply (Hcells 4%nat "LastUpdate"%string);
            [reflexivity|first_column|reflexivity|reflexivity]|].
    split; [apply (Hcells 3%nat "PreviousValue"%string);
            [reflexivity|first_column|reflexivity|reflexivity]|].
    split; [apply (Hcells 5%nat "Unit"%string);
            [reflexivity|first_column|reflexivity|reflexivity]|].
    apply (Hcells 6%nat "Frequency"%string);
      [reflexivity|first_column|reflexivity|reflexivity].
  - assert ((te_getIndicatorData "Japan" "Interest Rate"
               (world (start [TeReturns (Some numeric_frame)]))).1
            = TeReturns (Some numeric_frame)) as Hjp by reflexivity.
    assert (df_empty numeric_frame = false) as Hne' by reflexivity.
    destruct (proj1 (safe_get_indicator_data_latest "Japan" "Interest Rate"
                       (start [TeReturns (Some numeric_frame)]))
                numeric_frame Hjp Hne')
      as (row & d & Hrow & Hrun & _ & _ & Hcells & _ & _ & _ & Hunit & _).
    injection Hrow as <-. exists d. split; [exact Hrun|].
    split; [apply (Hcells 1%nat "PreviousValue"%string);
            [reflexivity|first_column|reflexivity|reflexivity]|].
    apply Hunit. apply (bool_decide_unpack _). vm_compute. exact I.
Defined.

Lemma currency_pair_codes_uppercased_witness :
  str_upper "usd" ∈ dict_keys CURRENCY_COUNTRY_MAP
  ∧ str_upper "Jpy" ∈ dict_keys CURRENCY_COUNTRY_MAP
  ∧ ∃ p s',
      get_currency_pair_data "usd" "Jpy" (start []) = (Returned p, s')
      ∧ base_currency p = "USD" ∧ quote_currency p = "JPY".
Proof.
  assert (str_upper "usd" ∈ dict_keys CURRENCY_COUNTRY_MAP) as Hb by computed.
  assert (str_upper "Jpy" ∈ dict_keys CURRENCY_COUNTRY_MAP) as Hq by computed.
  split; [exact Hb|]. split; [exact Hq|].
  pose proof (proj1 (currency_pair_codes_uppercased "usd" "Jpy" (start [])
                       Hb Hq)) as Hcodes.
  destruct (get_currency_pair_data "usd" "Jpy" (start [])) as [[p|e] s'] eqn:Hrun.
  - exists p, s'. split; [reflexivity|]. exact Hcodes.
  - vm_compute in Hrun. discriminate.
Defined.



(** Ten fetches of which the first and the fourth bring a usable row. *)
Lemma get_interest_rates_default_witness :
  Forall slot_ok
    (fetch_all (list_calls "Interest Rate"
                  (take 10 (dict_values CURRENCY_COUNTRY_MAP)))
       (start [TeReturns (Some numeric_frame); TeRaises "timed out";
               TeReturns None; TeReturns (Some numeric_frame)])).1
  ∧ ∃ entries s',
      get_interest_rates None
        (start [TeReturns (Some numeric_frame); TeRaises "timed out";
                TeReturns None; TeReturns (Some numeric_frame)])
      = (Returned entries, s')
      ∧ length entries = 2
      ∧ length (te_calls s') = 10.
Proof.
  assert (Forall slot_ok
            (fetch_all (list_calls "Interest Rate"
                          (take 10 (dict_values CURRENCY_COUNTRY_MAP)))
               (start [TeReturns (Some numeric_frame); TeRaises "timed out";
                       TeReturns None; TeReturns (Some numeric_frame)])).1)
    as Hok by usable.
  split; [exact Hok|].
  destruct (get_interest_rates_default _ Hok)
    as (ods & s' & Hfetch & Hrun & Hcalls & Hlen & Hcount & Hle).
  exists (omap slot_of ods), s'. split; [exact Hrun|].
  vm_compute in Hfetch. injection Hfetch as <- <-.
  split; reflexivity.
Defined.

(** The default sweep when the first fetch brings the provider's own row:
    the request dies on the validation of that row, after one fetch. *)
Lemma get_interest_rates_default_raises :
  get_interest_rates None (start [TeReturns (Some us_rate_frame)])
    = (Raised ValidationError,
       mkState {| responses := []; clock := ["2024-01-31T12:00:00"] |}
         [("United States", "Interest Rate")])
  ∧ ¬ ∃ entries s',
        get_interest_rates None (start [TeReturns (Some us_rate_frame)])
          = (Returned entries, s').
Proof.
  split; [reflexivity|]. intros (entries & s' & Hrun).
  vm_compute in Hrun. discriminate.
Qed.

End Runs.

(** * More properties of the handlers *)

Section MoreProperties.
Context `{RT : Runtime} {W : Type} `{PR : !Provider W}.

Local Open Scope list_scope.
Local Open Scope nat_scope.

Implicit Types (s : state W) (country indicator label : string).

(** ** The fetch loops *)

Lemma bind_raised {B C} (m : M B) (k : B → M C) s e s' :
  m s = (Raised e, s') → bind m k s = (Raised e, s').
Proof. unfold bind. by intros ->. Qed.

Lemma fetch_step_eq {X A} (call_of : X → string * string)
    (upd : A → X → option EconomicIndicator → A) (x : X) (acc : A) s :
  fetch_step call_of upd x acc s =
    match (fetched (call_of x).1 (call_of x).2 s).1 with
    | Some d =>
        match validate_indicator d with
        | Some e =>
            (Returned (upd acc x (Some e)),
             (fetched (call_of x).1 (call_of x).2 s).2)
        | None =>
            (Raised ValidationError,
             (fetched (call_of x).1 (call_of x).2 s).2)
        end
    | None =>
        (Returned (upd acc x None), (fetched (call_of x).1 (call_of x).2 s).2)
    end.
Proof.
  unfold fetch_step.
  rewrite (bind_returned _ _ _ _ _ (safe_get_fetched _ _ _)).
  destruct (fetched (call_of x).1 (call_of x).2 s) as [[d|] s1]; simpl; [|done].
  unfold EconomicIndicator_new, bind.
  by destruct (validate_indicator d).
Qed.

Lemma fetch_all_cons (call : string * string) (calls : list (string * string))
    s :
  fetch_all (call :: calls) s =
    ((fetched call.1 call.2 s).1
       :: (fetch_all calls (fetched call.1 call.2 s).2).1,
     (fetch_all calls (fetched call.1 call.2 s).2).2).
Proof.
  destruct call as [c i]. simpl.
  destruct (fetched c i s) as [od s1]. simpl.
  by destruct (fetch_all calls s1).
Qed.

(** What a fetch loop does, for every behaviour of the provider: it either
    goes through all its calls, each fetch being usable, or stops with a
    [ValidationError] right after the first fetch that is not.  Either way
    the state it leaves is the one the fetches it made left. *)
Lemma fetch_loop_outcome {X A} (call_of : X → string * string)
    (upd : A → X → option EconomicIndicator → A) (xs : list X) (acc : A) s :
  ∃ k,
    k ≤ length xs
    ∧ (for_each xs (fetch_step call_of upd) acc s).2
      = (fetch_all (take k (call_of <$> xs)) s).2
    ∧ match (for_each xs (fetch_step call_of upd) acc s).1 with
      | Returned out =>
          k = length xs
          ∧ Forall slot_ok (fetch_all (call_of <$> xs) s).1
          ∧ out = fold_slots upd acc xs (fetch_all (call_of <$> xs) s).1
      | Raised e =>
          e = ValidationError
          ∧ 0 < k
          ∧ ¬ Forall slot_ok (fetch_all (call_of <$> xs) s).1
      end.
Proof.
  revert acc s. induction xs as [|x xs IH]; intros acc s.
  - exists 0. by simpl.
  - rewrite fmap_cons, fetch_all_cons. cbn [for_each]. unfold bind at 1 2.
    rewrite fetch_step_eq.
    destruct (fetched (call_of x).1 (call_of x).2 s) as [od s1] eqn:Hfetch.
    simpl.
    destruct od as [d|]; [destruct (validate_indicator d) as [e|] eqn:Hd|].
    + destruct (IH (upd acc x (Some e)) s1) as (k & Hk & Hstate & Hout).
      exists (S k). split; [simpl; lia|]. split.
      { cbn [take]. rewrite fetch_all_cons, Hfetch. exact Hstate. }
      destruct (for_each xs _ _ s1) as [[out|e'] s2]; simpl in *.
      * destruct Hout as (-> & Hok & ->).
        split; [done|]. split.
        -- apply Forall_cons. split; [|done]. simpl. by rewrite Hd.
        -- unfold fold_slots. simpl. by rewrite Hd.
      * destruct Hout as (-> & Hpos & Hno).
        split; [done|]. split; [lia|].
        intros Hall. apply Forall_cons in Hall as [_ Hall]. by apply Hno.
    + exists 1. split; [simpl; lia|]. split.
      { cbn [take]. rewrite take_0, fetch_all_cons, Hfetch. done. }
      simpl. split; [done|]. split; [lia|].
      intros Hall. apply Forall_cons in Hall as [[e He] _].
      simpl in He. congruence.
    + destruct (IH (upd acc x None) s1) as (k & Hk & Hstate & Hout).
      exists (S k). split; [simpl; lia|]. split.
      { cbn [take]. rewrite fetch_all_cons, Hfetch. exact Hstate. }
      destruct (for_each xs _ _ s1) as [[out|e'] s2]; simpl in *.
      * destruct Hout as (-> & Hok & ->).
        split; [done|]. split; [|done].
        apply Forall_cons. by split.
      * destruct Hout as (-> & Hpos & Hno).
        split; [done|]. split; [lia|].
        intros Hall. apply Forall_cons in Hall as [_ Hall]. by apply Hno.
Qed.

Lemma fetch_all_calls (calls : list (string * string)) s :
  te_calls (fetch_all calls s).2 = te_calls s ++ calls.
Proof. apply fetch_all_provider_run. Qed.

(** Where a fetch loop that raises stops: at the first fetch that is not
    usable, in the state that fetch left. *)
Lemma fetch_loop_first_failure {X A} (call_of : X → string * string)
    (upd : A → X → option EconomicIndicator → A) (xs : list X) (acc : A)
    s e s' :
  for_each xs (fetch_step call_of upd) acc s = (Raised e, s') →
  ∃ i od,
    i < length xs
    ∧ (fetch_all (call_of <$> xs) s).1 !! i = Some od
    ∧ ¬ slot_ok od
    ∧ Forall slot_ok (take i (fetch_all (call_of <$> xs) s).1)
    ∧ s' = (fetch_all (take (S i) (call_of <$> xs)) s).2.
Proof.
  revert acc s. induction xs as [|x xs IH]; intros acc s; [discriminate|].
  rewrite fmap_cons, fetch_all_cons. cbn [for_each]. unfold bind at 1.
  rewrite fetch_step_eq.
  destruct (fetched (call_of x).1 (call_of x).2 s) as [od s1] eqn:Hfetch.
  cbn [fst snd].
  destruct od as [d|]; [destruct (validate_indicator d) as [e0|] eqn:Hd|].
  - intros (i & od & Hi & Hod & Hbad & Hgood & ->)%IH.
    exists (S i), od. split; [simpl; lia|]. split; [done|]. split; [done|].
    split.
    + cbn [take]. apply Forall_cons. split; [|done]. simpl. by rewrite Hd.
    + cbn [take]. by rewrite fetch_all_cons, Hfetch.
  - intros [= <- <-]. exists 0, (Some d). split; [simpl; lia|].
    split; [done|]. split.
    + intros [e0 He0]. simpl in He0. congruence.
    + split; [constructor|]. cbn [take]. rewrite take_0, fetch_all_cons.
      by rewrite Hfetch.
  - intros (i & od & Hi & Hod & Hbad & Hgood & ->)%IH.
    exists (S i), od. split; [simpl; lia|]. split; [done|]. split; [done|].
    split.
    + cbn [take]. apply Forall_cons. by split.
    + cbn [take]. by rewrite fetch_all_cons, Hfetch.
Qed.

(** The slots a run of fetches fills carry the labels they were asked for. *)
Lemma fetch_all_labels (calls : list (string * string)) s :
  Forall2 (λ call od, ∀ e, slot_of od = Some e → indicator e = call.2)
    calls (fetch_all calls s).1.
Proof.
  revert s. induction calls as [|call calls IH]; intros s.
  - constructor.
  - rewrite fetch_all_cons. simpl. constructor; [|apply IH].
    rewrite fetched_eq. simpl. intros e.
    destruct (te_getIndicatorData call.1 call.2 (world s)).1 as [msg|[df|]];
      simpl; try discriminate.
    destruct (df_empty df); [discriminate|].
    destruct (iloc_last df) as [latest|]; [|discriminate]. simpl.
    unfold validate_indicator. simpl.
    repeat (match goal with
            | |- context [match ?x with Some _ => _ | None => _ end] =>
                destruct x; try discriminate
            end).
    by intros [= <-].
Qed.

Lemma fold_slots_append (countries : list string)
    (ods : list (option indicator_dict)) (results : list EconomicIndicator) :
  length countries = length ods →
  fold_slots append_slot results countries ods = results ++ omap slot_of ods.
Proof.
  unfold fold_slots. revert ods results.
  induction countries as [|c cs IH]; intros [|od ods] results Hlen;
    simplify_eq/=; [by rewrite app_nil_r|].
  rewrite IH by done.
  change (omap slot_of (od :: ods)) with
    (match slot_of od with
     | Some e => e :: omap slot_of ods
     | None => omap slot_of ods
     end).
  destruct (slot_of od); simpl; [by rewrite <- app_assoc|done].
Qed.

Lemma collect_indicator_loop_eq label (countries : list string) s :
  collect_indicator label countries s
  = for_each countries (fetch_step (λ c, (c, label)) append_slot) [] s.
Proof. reflexivity. Qed.

Lemma get_country_economic_data_loop_eq country s :
  get_country_economic_data country s
  = bind (for_each indicators
            (fetch_step (λ item : string * string, (country, item.2)) set_slot)
            [])
      (λ data,
         bind datetime_now
           (λ now, CountryEconomicData_new country data now)) s.
Proof. reflexivity. Qed.

(** The aggregator, for every behaviour of the provider. *)
Lemma get_country_economic_data_cases country s :
  match get_country_economic_data country s with
  | (Returned r, s') =>
      Forall slot_ok (fetch_all (indicator_calls country) s).1
      ∧ ced_country r = country
      ∧ [interest_rate r; gdp_growth r; inflation_rate r; unemployment_rate r]
        = slot_of <$> (fetch_all (indicator_calls country) s).1
      ∧ te_calls s' = te_calls s ++ indicator_calls country
  | (Raised e, s') =>
      e = ValidationError
      ∧ ¬ Forall slot_ok (fetch_all (indicator_calls country) s).1
      ∧ ∃ k, 0 < k ≤ 4
          ∧ s' = (fetch_all (take k (indicator_calls country)) s).2
  end.
Proof.
  destruct (fetch_loop_outcome (λ item : string * string, (country, item.2))
              set_slot indicators [] s) as (k & Hk & Hstate & Hout).
  destruct (for_each indicators _ [] s) as [[data|e] s1] eqn:Hloop;
    simpl in Hstate, Hout.
  - destruct Hout as (_ & Hok & _).
    destruct (get_country_economic_data_spec country s Hok)
      as (ir & gdp & infl & unemp & Hslots & Hrun).
    rewrite Hrun. split; [exact Hok|]. split; [reflexivity|].
    split; [symmetry; exact Hslots|].
    exact (fetch_all_calls (indicator_calls country) s).
  - destruct Hout as (-> & Hpos & Hno).
    rewrite get_country_economic_data_loop_eq.
    rewrite (bind_raised _ _ _ _ _ Hloop).
    split; [done|]. split; [exact Hno|].
    exists k. split; [simpl in Hk; lia|exact Hstate].
Qed.

Lemma list_endpoints_collect
    (endpoint : option (list string) → M (list EconomicIndicator)) label :
  (endpoint, label) ∈ list_endpoints →
  ∀ countries s,
    endpoint countries s = collect_indicator label (countries_or_default countries) s.
Proof.
  unfold list_endpoints. intros Hin.
  repeat (apply elem_of_cons in Hin as [[= -> ->]|Hin]; [done|]).
  by apply elem_of_nil in Hin.
Qed.

(** The loop of a list endpoint, for every behaviour of the provider. *)
Lemma collect_indicator_cases label (countries : list string) s :
  match collect_indicator label countries s with
  | (Returned entries, s') =>
      Forall slot_ok (fetch_all (list_calls label countries) s).1
      ∧ entries = omap slot_of (fetch_all (list_calls label countries) s).1
      ∧ s' = (fetch_all (list_calls label countries) s).2
  | (Raised e, s') =>
      e = ValidationError
      ∧ ¬ Forall slot_ok (fetch_all (list_calls label countries) s).1
      ∧ ∃ k, 0 < k ≤ length countries
          ∧ s' = (fetch_all (take k (list_calls label countries)) s).2
  end.
Proof.
  rewrite collect_indicator_loop_eq.
  destruct (fetch_loop_outcome (λ c : string, (c, label)) append_slot
              countries [] s) as (k & Hk & Hstate & Hout).
  fold (list_calls label countries) in *.
  destruct (for_each countries _ [] s) as [[entries|e] s1];
    simpl in Hstate, Hout.
  - destruct Hout as (-> & Hok & ->).
    split; [exact Hok|]. split.
    + rewrite fold_slots_append; [done|].
      unfold list_calls. by rewrite fetch_all_length, length_fmap.
    + rewrite Hstate. unfold list_calls at 1.
      by rewrite <- (length_fmap (λ c : string, (c, label))), firstn_all.
  - destruct Hout as (-> & Hpos & Hno).
    split; [done|]. split; [exact Hno|]. exists k. by split; [lia|].
Qed.

(** ** The indicator fetcher *)

(** X1.  Whatever the provider does, the fetcher returns: it makes one
    provider call and reports absence exactly when that call raised,
    returned [None] or returned an empty frame. *)
Theorem safe_get_indicator_data_never_raises country indicator s :
  ∃ od s',
    safe_get_indicator_data country indicator s = (Returned od, s')
    ∧ te_calls s' = te_calls s ++ [(country, indicator)]
    ∧ (od = None
       ↔ te_fails (te_getIndicatorData country indicator (world s)).1).
Proof.
  eexists _, _. split; [apply safe_get_indicator_data_eq|].
  split; [done|]. symmetry. apply dict_of_response_fails.
Qed.

(** X2.  A column the provider's frame does not have gives the field its
    default: the requested country for [Country], [None] for the others. *)
Theorem safe_get_indicator_data_missing_columns country indicator s df :
  (te_getIndicatorData country indicator (world s)).1 = TeReturns (Some df) →
  df_empty df = false →
  ∃ d,
    (safe_get_indicator_data country indicator s).1 = Returned (Some d)
    ∧ d_indicator d = indicator
    ∧ ("Country" ∉ df_columns df → d_country d = PyStr country)
    ∧ ("LastUpdate" ∉ df_columns df →
       d_value d = PyNone ∧ d_last_update d = PyNone)
    ∧ ("PreviousValue" ∉ df_columns df → d_previous_value d = PyNone)
    ∧ ("Unit" ∉ df_columns df → d_unit d = PyNone)
    ∧ ("Frequency" ∉ df_columns df → d_frequency d = PyNone).
Proof.
  intros Hanswer Hne. rewrite safe_get_indicator_data_eq, Hanswer. simpl.
  rewrite Hne. destruct (df_nonempty_last df Hne) as [row Hrow].
  unfold iloc_last. rewrite Hrow. simpl. eexists. split; [done|].
  split; [reflexivity|]. simpl.
  split; [intros Hout; by apply series_get_missing|].
  split; [intros Hout; split; by apply series_get_missing|].
  split; [intros Hout; by apply series_get_missing|].
  split; intros Hout; by apply series_get_missing.
Qed.

(** ** The country aggregator and [/indicators/{country}] *)

Lemma get_country_economic_data_first_failure country s e s' :
  get_country_economic_data country s = (Raised e, s') →
  ∃ i od,
    i < 4
    ∧ (fetch_all (indicator_calls country) s).1 !! i = Some od
    ∧ ¬ slot_ok od
    ∧ Forall slot_ok (take i (fetch_all (indicator_calls country) s).1)
    ∧ s' = (fetch_all (take (S i) (indicator_calls country)) s).2.
Proof.
  intros Hrun.
  destruct (fetch_loop_outcome (λ item : string * string, (country, item.2))
              set_slot indicators [] s) as (k & Hk & Hstate & Hout).
  destruct (for_each indicators _ [] s) as [[data|e1] s1] eqn:Hloop;
    simpl in Hout.
  - destruct Hout as (_ & Hok & _).
    destruct (get_country_economic_data_spec country s Hok)
      as (ir & gdp & infl & unemp & _ & Hret).
    rewrite Hret in Hrun. discriminate.
  - rewrite get_country_economic_data_loop_eq in Hrun.
    rewrite (bind_raised _ _ _ _ _ Hloop) in Hrun. injection Hrun as <- <-.
    exact (fetch_loop_first_failure _ _ _ _ _ _ _ Hloop).
Qed.

(** X3.  For every behaviour of the provider the aggregator either returns
    a record for the input country, after exactly its four provider calls,
    or raises a [ValidationError]; it raises exactly when one of the rows
    fetched fails the validation, and it then stops at the first such row:
    the fetches before it were usable, the state is the one that fetch
    left, no later indicator is fetched and the clock is not read. *)
Theorem get_country_economic_data_outcome country s :
  match get_country_economic_data country s with
  | (Returned r, s') =>
      Forall slot_ok (fetch_all (indicator_calls country) s).1
      ∧ ced_country r = country
      ∧ te_calls s' = te_calls s ++ indicator_calls country
  | (Raised e, s') =>
      e = ValidationError
      ∧ ¬ Forall slot_ok (fetch_all (indicator_calls country) s).1
      ∧ ∃ i od,
          i < 4
          ∧ (fetch_all (indicator_calls country) s).1 !! i = Some od
          ∧ ¬ slot_ok od
          ∧ Forall slot_ok (take i (fetch_all (indicator_calls country) s).1)
          ∧ s' = (fetch_all (take (S i) (indicator_calls country)) s).2
          ∧ te_calls s' = te_calls s ++ take (S i) (indicator_calls country)
  end.
Proof.
  pose proof (get_country_economic_data_cases country s) as Hcases.
  destruct (get_country_economic_data country s) as [[r|e] s'] eqn:Hrun.
  - tauto.
  - destruct Hcases as (-> & Hno & _).
    split; [done|]. split; [done|].
    destruct (get_country_economic_data_first_failure _ _ _ _ Hrun)
      as (i & od & Hi & Hod & Hbad & Hgood & ->).
    exists i, od. split; [done|]. split; [done|]. split; [done|].
    split; [done|]. split; [done|]. apply fetch_all_calls.
Qed.

(** X4.  In a record the aggregator returns, a slot that is present holds
    the indicator of its own label: the four slots are never mixed up. *)
Theorem get_country_economic_data_slot_labels country s r s' :
  get_country_economic_data country s = (Returned r, s') →
  (∀ e, interest_rate r = Some e → indicator e = "Interest Rate"%string)
  ∧ (∀ e, gdp_growth r = Some e → indicator e = "GDP Growth Rate"%string)
  ∧ (∀ e, inflation_rate r = Some e → indicator e = "Inflation Rate"%string)
  ∧ (∀ e, unemployment_rate r = Some e →
          indicator e = "Unemployment Rate"%string).
Proof.
  intros Hrun. pose proof (get_country_economic_data_cases country s) as Hcases.
  rewrite Hrun in Hcases. destruct Hcases as (_ & _ & Hslots & _).
  pose proof (fetch_all_labels (indicator_calls country) s) as Hlabels.
  destruct (fetch_all (indicator_calls country) s).1
    as [|o1 [|o2 [|o3 [|o4 [|o5 ods]]]]]; try discriminate.
  injection Hslots as -> -> -> ->.
  unfold indicator_calls, indicators in Hlabels. simpl in Hlabels.
  apply Forall2_cons in Hlabels as [H1 Hlabels].
  apply Forall2_cons in Hlabels as [H2 Hlabels].
  apply Forall2_cons in Hlabels as [H3 Hlabels].
  apply Forall2_cons in Hlabels as [H4 _].
  auto.
Qed.

(** X5.  [/indicators/{country}] accepts every country name and answers 200
    or 500, nothing else: 200 with the aggregator's record exactly when
    every row fetched validates, and otherwise 500 with the detail "Error
    fetching data for" and the country. *)
Theorem get_country_indicators_outcome country s :
  match get_country_economic_data country s with
  | (Returned r, s') => get_country_indicators country s = (Returned r, s')
  | (Raised _, s') =>
      get_country_indicators country s =
        (Raised (HTTPException 500 ("Error fetching data for " ++ country)%string),
         s')
  end
  ∧ (http_status (get_country_indicators country s).1 = 200
     ∨ http_status (get_country_indicators country s).1 = 500)
  ∧ (http_status (get_country_indicators country s).1 = 200
     ↔ Forall slot_ok (fetch_all (indicator_calls country) s).1).
Proof.
  pose proof (get_country_economic_data_cases country s) as Hcases.
  unfold get_country_indicators, try_except, bind, ret, raise.
  destruct (get_country_economic_data country s) as [[r|e] s']; simpl.
  - split; [done|]. split; [by left|]. split; [tauto|done].
  - split; [done|]. split; [by right|].
    destruct Hcases as (_ & Hno & _). split; [discriminate|done].
Qed.

(** ** [/currency-pairs/{base}/{quote}] *)

Lemma dict_contains_false_keys {V} (d : list (string * V)) (key : string) :
  dict_contains d key = false ↔ key ∉ dict_keys d.
Proof.
  rewrite <- dict_contains_keys. by destruct (dict_contains d key).
Qed.

Lemma get_currency_pair_data_bad_base base quote s :
  str_upper base ∉ dict_keys CURRENCY_COUNTRY_MAP →
  get_currency_pair_data base quote s =
    (Raised (HTTPException 404
               ("Currency " ++ str_upper base ++ " not supported")%string), s).
Proof.
  intros Hbad%dict_contains_false_keys. unfold get_currency_pair_data.
  by rewrite Hbad.
Qed.

Lemma get_currency_pair_data_bad_quote base quote s :
  str_upper base ∈ dict_keys CURRENCY_COUNTRY_MAP →
  str_upper quote ∉ dict_keys CURRENCY_COUNTRY_MAP →
  get_currency_pair_data base quote s =
    (Raised (HTTPException 404
               ("Currency " ++ str_upper quote ++ " not supported")%string), s).
Proof.
  intros Hb%dict_contains_keys Hbad%dict_contains_false_keys.
  unfold get_currency_pair_data. by rewrite Hb, Hbad.
Qed.

(** The composer on two supported codes, for every behaviour of the
    provider. *)
Lemma get_currency_pair_data_cases base quote base_country quote_country s :
  dict_get CURRENCY_COUNTRY_MAP (str_upper base) = Some base_country →
  dict_get CURRENCY_COUNTRY_MAP (str_upper quote) = Some quote_country →
  match get_country_economic_data base_country s with
  | (Returned base_data, s1) =>
      match get_country_economic_data quote_country s1 with
      | (Returned quote_data, s2) =>
          get_currency_pair_data base quote s =
            (Returned {| base_currency := str_upper base;
                         quote_currency := str_upper quote;
                         base_country_data := base_data;
                         quote_country_data := quote_data |}, s2)
      | (Raised _, s2) =>
          get_currency_pair_data base quote s =
            (Raised (HTTPException 500 "Error fetching currency pair data"),
             s2)
      end
  | (Raised _, s1) =>
      get_currency_pair_data base quote s =
        (Raised (HTTPException 500 "Error fetching currency pair data"), s1)
  end.
Proof.
  intros Hb Hq. rewrite (get_currency_pair_data_supported _ _ _ _ s Hb Hq).
  unfold try_except, bind, ret, raise.
  destruct (get_country_economic_data base_country s) as [[bd|e1] s1]; [|done].
  by destruct (get_country_economic_data quote_country s1) as [[qd|e2] s2].
Qed.

(** X6.  [/currency-pairs/{base}/{quote}] answers 200, 404 or 500 and
    nothing else, and it answers 404 exactly when the uppercased base or
    the uppercased quote is not a key of the table. *)
Theorem currency_pair_status base quote s :
  (http_status (get_currency_pair_data base quote s).1 = 200
   ∨ http_status (get_currency_pair_data base quote s).1 = 404
   ∨ http_status (get_currency_pair_data base quote s).1 = 500)
  ∧ (http_status (get_currency_pair_data base quote s).1 = 404
     ↔ str_upper base ∉ dict_keys CURRENCY_COUNTRY_MAP
       ∨ str_upper quote ∉ dict_keys CURRENCY_COUNTRY_MAP).
Proof.
  destruct (decide (str_upper base ∈ dict_keys CURRENCY_COUNTRY_MAP))
    as [Hb|Hb].
  - destruct (decide (str_upper quote ∈ dict_keys CURRENCY_COUNTRY_MAP))
      as [Hq|Hq].
    + destruct (dict_contains_get _ _ (proj2 (dict_contains_keys _ _) Hb))
        as [bc Hbc].
      destruct (dict_contains_get _ _ (proj2 (dict_contains_keys _ _) Hq))
        as [qc Hqc].
      pose proof (get_currency_pair_data_cases base quote bc qc s Hbc Hqc)
        as Hcases.
      destruct (get_country_economic_data bc s) as [[bd|e1] s1].
      * destruct (get_country_economic_data qc s1) as [[qd|e2] s2];
          rewrite Hcases; simpl; (split; [auto|]); split;
            solve [discriminate | tauto].
      * rewrite Hcases; simpl. split; [auto|].
        split; solve [discriminate | tauto].
    + rewrite get_currency_pair_data_bad_quote by done. simpl. tauto.
  - rewrite get_currency_pair_data_bad_base by done. simpl. tauto.
Qed.

(** X7.  The 404 names the first code that is not supported: the base when
    the base is not, whatever the quote is, and the quote only when the
    base is supported. *)
Theorem currency_pair_404_detail base quote s :
  (str_upper base ∉ dict_keys CURRENCY_COUNTRY_MAP →
   (get_currency_pair_data base quote s).1 =
     Raised (HTTPException 404
               ("Currency " ++ str_upper base ++ " not supported")%string))
  ∧ (str_upper base ∈ dict_keys CURRENCY_COUNTRY_MAP →
     str_upper quote ∉ dict_keys CURRENCY_COUNTRY_MAP →
     (get_currency_pair_data base quote s).1 =
       Raised (HTTPException 404
                 ("Currency " ++ str_upper quote ++ " not supported")%string)).
Proof.
  split.
  - intros Hb. by rewrite get_currency_pair_data_bad_base.
  - intros Hb Hq. by rewrite get_currency_pair_data_bad_quote.
Qed.

Lemma indicator_calls_length country : length (indicator_calls country) = 4.
Proof. reflexivity. Qed.

(** X8.  On two supported codes the composer fetches the base country's four
    indicators, then the quote country's four, and nothing else: eight
    provider calls when it returns, a beginning of these eight when it
    answers 500; when the base aggregation raises, nothing is fetched for
    the quote country. *)
Theorem currency_pair_calls base quote base_country quote_country s :
  dict_get CURRENCY_COUNTRY_MAP (str_upper base) = Some base_country →
  dict_get CURRENCY_COUNTRY_MAP (str_upper quote) = Some quote_country →
  match get_currency_pair_data base quote s with
  | (Returned p, s') =>
      ced_country (base_country_data p) = base_country
      ∧ ced_country (quote_country_data p) = quote_country
      ∧ te_calls s' =
          te_calls s ++ indicator_calls base_country
            ++ indicator_calls quote_country
  | (Raised e, s') =>
      e = HTTPException 500 "Error fetching currency pair data"
      ∧ ∃ k, 0 < k ≤ 8
          ∧ te_calls s' =
              te_calls s
                ++ take k (indicator_calls base_country
                             ++ indicator_calls quote_country)
  end
  ∧ ∀ e s1,
      get_country_economic_data base_country s = (Raised e, s1) →
      ∃ k, 0 < k ≤ 4
        ∧ te_calls (get_currency_pair_data base quote s).2 =
            te_calls s ++ take k (indicator_calls base_country).
Proof.
  intros Hb Hq.
  pose proof (get_currency_pair_data_cases base quote _ _ s Hb Hq) as Hcases.
  pose proof (get_country_economic_data_cases base_country s) as Hbase.
  destruct (get_country_economic_data base_country s) as [[bd|e1] s1].
  - destruct Hbase as (_ & Hbc & _ & Hcalls1).
    pose proof (get_country_economic_data_cases quote_country s1) as Hquote.
    destruct (get_country_economic_data quote_country s1) as [[qd|e2] s2];
      rewrite Hcases.
    + destruct Hquote as (_ & Hqc & _ & Hcalls2).
      split; [|intros ? ? [=]]. simpl. split; [done|]. split; [done|].
      by rewrite Hcalls2, Hcalls1, <- app_assoc.
    + destruct Hquote as (_ & _ & k & Hk & ->).
      split; [|intros ? ? [=]]. split; [done|].
      exists (4 + k). split; [lia|].
      rewrite fetch_all_calls, Hcalls1, <- app_assoc. reflexivity.
  - destruct Hbase as (_ & _ & k & Hk & ->). rewrite Hcases. split.
    + split; [done|]. exists k. split; [lia|].
      rewrite fetch_all_calls, take_app_le; [done|].
      rewrite indicator_calls_length. lia.
    + intros e s1' _. exists k. split; [done|]. apply fetch_all_calls.
Qed.

(** ** The list endpoints *)

(** The list a list endpoint works on: the one given when it is not
    empty, the ten default countries otherwise. *)
Lemma countries_or_default_cases (countries : option (list string))
    (cs : list string) :
  (countries = Some cs ∧ cs ≠ [])
  ∨ ((countries = None ∨ countries = Some []) ∧ cs = default_countries) →
  countries_or_default countries = cs.
Proof.
  intros [[-> Hne]|[[->| ->] ->]]; [|reflexivity..].
  by destruct cs.
Qed.

Lemma collect_indicator_first_failure label (cs : list string) s e s' :
  collect_indicator label cs s = (Raised e, s') →
  ∃ i od,
    i < length cs
    ∧ (fetch_all ((λ country, (country, label)) <$> cs) s).1 !! i = Some od
    ∧ ¬ slot_ok od
    ∧ Forall slot_ok
        (take i (fetch_all ((λ country, (country, label)) <$> cs) s).1)
    ∧ s' = (fetch_all (take (S i) ((λ country, (country, label)) <$> cs)) s).2.
Proof.
  rewrite collect_indicator_loop_eq. apply fetch_loop_first_failure.
Qed.

(** X9.  Each of the four list endpoints, when every row fetched validates:
    given a list of countries that is not empty it fetches its own
    indicator for exactly these countries, in order, duplicates included;
    given the empty list or nothing, for the ten default countries; and it
    returns the entries of the fetches that brought a row, in that order. *)
Theorem list_endpoints_fetch_requested
    (endpoint : option (list string) → M (list EconomicIndicator)) label
    (countries : option (list string)) (cs : list string) s :
  (endpoint, label) ∈ list_endpoints →
  (countries = Some cs ∧ cs ≠ [])
  ∨ ((countries = None ∨ countries = Some [])
     ∧ cs = ["United States"; "Euro Area"; "United Kingdom"; "Japan";
             "Switzerland"; "Canada"; "Australia"; "New Zealand"; "Sweden";
             "Norway"]%string) →
  Forall slot_ok (fetch_all ((λ country, (country, label)) <$> cs) s).1 →
  ∃ ods s',
    fetch_all ((λ country, (country, label)) <$> cs) s = (ods, s')
    ∧ endpoint countries s = (Returned (omap slot_of ods), s')
    ∧ te_calls s' = te_calls s ++ ((λ country, (country, label)) <$> cs)
    ∧ length ods = length cs
    ∧ length (omap slot_of ods) = length (filter is_Some ods)
    ∧ length (omap slot_of ods) ≤ length cs.
Proof.
  intros Hin Hcase Hok. rewrite (list_endpoints_collect endpoint label Hin).
  rewrite (countries_or_default_cases countries cs Hcase).
  pose proof (collect_indicator_cases label cs s) as Hcases.
  pose proof (fetch_all_calls (list_calls label cs) s) as Hcalls.
  pose proof (fetch_all_length (list_calls label cs) s) as Hlen.
  unfold list_calls in *. rewrite length_fmap in Hlen.
  destruct (fetch_all ((λ country, (country, label)) <$> cs) s)
    as [ods s1]. simpl in *.
  destruct (collect_indicator label cs s) as [[entries|e] s'].
  - destruct Hcases as (_ & -> & ->). exists ods, s1.
    split; [done|]. split; [done|]. split; [done|]. split; [done|].
    split; [by apply successes_counted|].
    etrans; [apply omap_length_le|]. by rewrite Hlen.
  - by destruct Hcases as (_ & Hno & _).
Qed.

(** X10.  Every entry a list endpoint returns carries the endpoint's own
    indicator, and there are at most as many entries as requested
    countries. *)
Theorem list_endpoints_entries_labelled
    (endpoint : option (list string) → M (list EconomicIndicator)) label
    (countries : option (list string)) s entries s' :
  (endpoint, label) ∈ list_endpoints →
  endpoint countries s = (Returned entries, s') →
  Forall (λ e, indicator e = label) entries
  ∧ length entries ≤ length (countries_or_default countries).
Proof.
  intros Hin. rewrite (list_endpoints_collect endpoint label Hin).
  intros Hrun.
  pose proof (collect_indicator_cases label (countries_or_default countries) s) as Hcases.
  rewrite Hrun in Hcases. destruct Hcases as (_ & -> & _).
  pose proof (fetch_all_labels (list_calls label (countries_or_default countries)) s)
    as Hlabels.
  pose proof (fetch_all_length (list_calls label (countries_or_default countries)) s)
    as Hlen.
  split.
  - apply Forall_forall. intros e He.
    apply list_elem_of_omap in He as (od & Hod & Hslot).
    apply list_elem_of_lookup in Hod as [i Hi].
    destruct (Forall2_lookup_r _ _ _ _ _ Hlabels Hi) as (call & Hcall & Hlab).
    rewrite (Hlab e Hslot). unfold list_calls in Hcall.
    apply list_lookup_fmap_Some in Hcall as (c & -> & _). done.
  - etrans; [apply omap_length_le|]. rewrite Hlen. unfold list_calls.
    by rewrite length_fmap.
Qed.

(** X11.  A list endpoint answers 200 or 500.  On the list it works on, the
    one given when it is not empty and the ten default countries
    otherwise, it either returns after fetching every country, or raises
    an unhandled [ValidationError] at the first country whose row does not
    validate: the fetches before it were usable, and the provider calls
    made are those up to that country, so that the countries after it are
    never fetched. *)
Theorem list_endpoints_outcome
    (endpoint : option (list string) → M (list EconomicIndicator)) label
    (countries : option (list string)) (cs : list string) s :
  (endpoint, label) ∈ list_endpoints →
  (countries = Some cs ∧ cs ≠ [])
  ∨ ((countries = None ∨ countries = Some [])
     ∧ cs = ["United States"; "Euro Area"; "United Kingdom"; "Japan";
             "Switzerland"; "Canada"; "Australia"; "New Zealand"; "Sweden";
             "Norway"]%string) →
  match endpoint countries s with
  | (Returned entries, s') =>
      Forall slot_ok (fetch_all ((λ country, (country, label)) <$> cs) s).1
      ∧ te_calls s' = te_calls s ++ ((λ country, (country, label)) <$> cs)
  | (Raised e, s') =>
      e = ValidationError
      ∧ http_status (endpoint countries s).1 = 500
      ∧ ∃ i od,
          i < length cs
          ∧ (fetch_all ((λ country, (country, label)) <$> cs) s).1 !! i
            = Some od
          ∧ ¬ slot_ok od
          ∧ Forall slot_ok
              (take i (fetch_all ((λ country, (country, label)) <$> cs) s).1)
          ∧ te_calls s' =
              te_calls s
                ++ take (S i) ((λ country, (country, label)) <$> cs)
  end.
Proof.
  intros Hin Hcase. rewrite (list_endpoints_collect endpoint label Hin).
  rewrite (countries_or_default_cases countries cs Hcase).
  pose proof (collect_indicator_cases label cs s) as Hcases.
  unfold list_calls in Hcases.
  destruct (collect_indicator label cs s) as [[entries|e] s'] eqn:Hrun.
  - destruct Hcases as (Hok & _ & ->). split; [done|]. apply fetch_all_calls.
  - destruct Hcases as (-> & _). split; [done|]. split; [done|].
    destruct (collect_indicator_first_failure _ _ _ _ _ Hrun)
      as (i & od & Hi & Hod & Hbad & Hgood & ->).
    exists i, od. split; [done|]. split; [done|]. split; [done|].
    split; [done|]. apply fetch_all_calls.
Qed.

(** X12.  When the provider fails on every requested country, a list
    endpoint answers 200 with the empty list, not an error. *)
Theorem list_endpoints_provider_down
    (endpoint : option (list string) → M (list EconomicIndicator)) label
    (countries : option (list string)) s :
  (endpoint, label) ∈ list_endpoints →
  Forall te_fails
    (provider_run (list_calls label (countries_or_default countries)) (world s)).1 →
  (endpoint countries s).1 = Returned []
  ∧ http_status (endpoint countries s).1 = 200.
Proof.
  intros Hin Hdown%fetch_all_failed.
  rewrite (list_endpoints_collect endpoint label Hin).
  pose proof (collect_indicator_cases label (countries_or_default countries) s) as Hcases.
  rewrite Hdown in Hcases.
  destruct (collect_indicator label (countries_or_default countries) s)
    as [[entries|e] s'].
  - destruct Hcases as (_ & -> & _). split; [|done]. simpl. f_equal.
    generalize (length (list_calls label (countries_or_default countries))).
    intros n. by induction n.
  - destruct Hcases as (_ & Hno & _). destruct Hno.
    apply Forall_replicate. exact I.
Qed.

(** ** When the provider is down *)





(** ** [/all-currency-pairs] *)

Lemma get_all_major_currency_pairs_eq s :
  get_all_major_currency_pairs s =
    (Returned (sweep sweep_combinations [] s).1,
     (sweep sweep_combinations [] s).2).
Proof.
  unfold get_all_major_currency_pairs.
  rewrite (for_each_nested (λ base quote : string, base ≠ quote)).
  by rewrite for_each_try_pair.
Qed.

Lemma get_currency_pair_data_returned_codes base quote s p s' :
  get_currency_pair_data base quote s = (Returned p, s') →
  pair_codes p = (str_upper base, str_upper quote).
Proof.
  destruct (decide (str_upper base ∈ dict_keys CURRENCY_COUNTRY_MAP))
    as [Hb|Hb]; [|by rewrite get_currency_pair_data_bad_base].
  destruct (decide (str_upper quote ∈ dict_keys CURRENCY_COUNTRY_MAP))
    as [Hq|Hq]; [|by rewrite get_currency_pair_data_bad_quote].
  destruct (dict_contains_get _ _ (proj2 (dict_contains_keys _ _) Hb))
    as [bc Hbc].
  destruct (dict_contains_get _ _ (proj2 (dict_contains_keys _ _) Hq))
    as [qc Hqc].
  pose proof (get_currency_pair_data_cases base quote bc qc s Hbc Hqc)
    as Hcases.
  destruct (get_country_economic_data bc s) as [[bd|e1] s1].
  - destruct (get_country_economic_data qc s1) as [[qd|e2] s2];
      rewrite Hcases; [|discriminate]. by intros [= <- _].
  - rewrite Hcases. discriminate.
Qed.

Lemma sweep_codes (combos : list (string * string))
    (pairs : list CurrencyPairData) s :
  ∃ l,
    (sweep combos pairs s).1 = pairs ++ l
    ∧ pair_codes <$> l
      `sublist_of` (λ bq, (str_upper bq.1, str_upper bq.2)) <$> combos.
Proof.
  revert pairs s. induction combos as [|[b q] combos IH]; intros pairs s.
  - exists []. simpl. by rewrite app_nil_r.
  - simpl.
    destruct (get_currency_pair_data b q s) as [[p|e] s'] eqn:Hrun.
    + destruct (IH (pairs ++ [p]) s') as (l & -> & Hsub).
      exists (p :: l). rewrite <- app_assoc. split; [done|].
      rewrite fmap_cons, (get_currency_pair_data_returned_codes _ _ _ _ _ Hrun).
      by apply sublist_skip.
    + destruct (IH pairs s') as (l & -> & Hsub).
      exists l. split; [done|]. by apply sublist_cons.
Qed.

Lemma sweep_combinations_upper :
  Forall (λ code, str_upper code = code) major_currencies →
  (λ bq : string * string, (str_upper bq.1, str_upper bq.2))
    <$> sweep_combinations = sweep_combinations.
Proof.
  unfold major_currencies. rewrite !Forall_cons.
  intros (HUSD & HEUR & HGBP & HJPY & HCHF & HCAD & HAUD & _).
  unfold sweep_combinations. simpl.
  by rewrite HUSD, HEUR, HGBP, HJPY, HCHF, HCAD, HAUD.
Qed.

Lemma sweep_combinations_shape :
  Forall (λ bq : string * string,
            bq.1 ≠ bq.2 ∧ bq.1 ∈ base_currencies ∧ bq.2 ∈ major_currencies)
    sweep_combinations.
Proof. apply (bool_decide_unpack _). by vm_compute. Qed.

(** X14.  When uppercasing leaves the seven major codes as they are, the
    pairs [/all-currency-pairs] returns are, by their codes and in order,
    among the 18 combinations, each at most once: at most 18 pairs, none
    of a currency with itself, every base one of USD, EUR and GBP. *)
Theorem all_currency_pairs_codes s :
  Forall (λ code, str_upper code = code) major_currencies →
  ∃ pairs s',
    get_all_major_currency_pairs s = (Returned pairs, s')
    ∧ pair_codes <$> pairs `sublist_of` sweep_combinations
    ∧ length pairs ≤ 18
    ∧ Forall (λ p, base_currency p ≠ quote_currency p
                   ∧ base_currency p ∈ base_currencies
                   ∧ quote_currency p ∈ major_currencies) pairs.
Proof.
  intros Hfix. eexists _, _. split; [apply get_all_major_currency_pairs_eq|].
  destruct (sweep_codes sweep_combinations [] s) as (l & -> & Hsub).
  rewrite (sweep_combinations_upper Hfix) in Hsub.
  change ([] ++ l) with l.
  split; [done|]. split.
  - apply sublist_length in Hsub. by rewrite length_fmap in Hsub.
  - apply Forall_forall. intros p Hp.
    assert (pair_codes p ∈ sweep_combinations) as Hin.
    { eapply elem_of_sublist; [|exact Hsub]. by apply list_elem_of_fmap_2. }
    pose proof sweep_combinations_shape as Hshape.
    rewrite Forall_forall in Hshape. exact (Hshape _ Hin).
Qed.



(** ** [/health] *)

Lemma health_check_eq s :
  health_check s =
    (Returned
       {| status := "healthy";
          trading_economics_api :=
            api_status_of
              (te_getIndicatorData "United States" "Interest Rate"
                 (world s)).1;
          timestamp :=
            (datetime_now_isoformat
               (te_getIndicatorData "United States" "Interest Rate"
                  (world s)).2).1 |},
     mkState
       (datetime_now_isoformat
          (te_getIndicatorData "United States" "Interest Rate" (world s)).2).2
       (te_calls s ++ [("United States", "Interest Rate")%string])).
Proof.
  unfold health_check, bind, try_except, getIndicatorData, datetime_now, ret.
  destruct (te_getIndicatorData "United States" "Interest Rate" (world s))
    as [[msg|[df|]] w1]; simpl;
    by destruct (datetime_now_isoformat w1) as [t w2].
Qed.

(** X16.  [/health] never fails and always says "healthy" in [status],
    whatever the provider does: it makes one provider call, for the
    interest rate of the United States, reports it as "healthy" when it
    returned a frame, "degraded" when it returned [None] and "error: "
    with the message when it raised, and then reads the clock. *)
Theorem health_check_always_healthy s :
  ∃ report s',
    health_check s = (Returned report, s')
    ∧ http_status (health_check s).1 = 200
    ∧ status report = "healthy"%string
    ∧ trading_economics_api report =
        match (te_getIndicatorData "United States" "Interest Rate"
                 (world s)).1 with
        | TeRaises msg => ("error: " ++ msg)%string
        | TeReturns None => "degraded"%string
        | TeReturns (Some _) => "healthy"%string
        end
    ∧ te_calls s' = te_calls s ++ [("United States", "Interest Rate")%string]
    ∧ timestamp report =
        (datetime_now_isoformat
           (te_getIndicatorData "United States" "Interest Rate"
              (world s)).2).1.
Proof.
  eexists _, _. rewrite health_check_eq. by repeat split.
Qed.

(** X17.  An empty frame is "healthy" for [/health], while the fetcher, on
    the same answer, reports that there is no data. *)
Theorem health_check_empty_frame s df :
  (te_getIndicatorData "United States" "Interest Rate" (world s)).1
    = TeReturns (Some df) →
  df_empty df = true →
  (∃ report s',
     health_check s = (Returned report, s')
     ∧ trading_economics_api report = "healthy"%string)
  ∧ (safe_get_indicator_data "United States" "Interest Rate" s).1
    = Returned None.
Proof.
  intros Hanswer Hempty. split.
  - eexists _, _. rewrite health_check_eq. split; [done|]. simpl.
    by rewrite Hanswer.
  - rewrite safe_get_indicator_data_eq. simpl. rewrite Hanswer. simpl.
    by rewrite Hempty.
Qed.

End MoreProperties.

(** * [/countries] *)

Section Countries.
Context `{RT : Runtime} {W : Type} `{PR : !Provider W}.
Context `{CA : !Catalogue W} `{CO : !Columns}.

Local Open Scope list_scope.
Local Open Scope nat_scope.

Implicit Types (s : state W).

Lemma unique_from_elem_of {A} `{EqDecision A} (seen l : list A) (x : A) :
  x ∈ unique_from seen l ↔ x ∈ l ∧ x ∉ seen.
Proof.
  revert seen. induction l as [|y l IH]; intros seen; simpl.
  - split; [by intros ?%elem_of_nil|]. by intros [?%elem_of_nil _].
  - destruct (decide (y ∈ seen)) as [Hin|Hout].
    + rewrite IH, elem_of_cons. split; [tauto|].
      intros [[->|Hx] Hno]; [done|tauto].
    + rewrite !elem_of_cons, IH, not_elem_of_cons. split.
      * intros [->|(Hx & Hne & Hno)]; tauto.
      * intros [[->|Hx] Hno]; [by left|].
        destruct (decide (x = y)) as [->|Hne]; [by left|right; tauto].
Qed.

Lemma unique_from_NoDup {A} `{EqDecision A} (seen l : list A) :
  NoDup (unique_from seen l).
Proof.
  revert seen. induction l as [|y l IH]; intros seen; simpl.
  - constructor.
  - destruct (decide (y ∈ seen)); [apply IH|].
    constructor; [|apply IH].
    rewrite unique_from_elem_of, not_elem_of_cons. tauto.
Qed.

(** The handler never raises: it takes the list read off the provider's
    answer, or the table's values. *)
Lemma get_available_countries_eq s :
  get_available_countries s =
    (Returned
       (default (PyStr <$> dict_values CURRENCY_COUNTRY_MAP)
          (countries_of_response (te_getIndicatorData_all (world s)).1)),
     mkState (te_getIndicatorData_all (world s)).2 (te_calls s)).
Proof.
  unfold get_available_countries, bind, try_except, getAllIndicatorData.
  destruct (te_getIndicatorData_all (world s)) as [[msg|[df|]] w1];
    simpl; try reflexivity.
  destruct (df_empty df); simpl; [reflexivity|].
  destruct (df_column df "Country") as [column|]; simpl; [|reflexivity].
  by destruct (py_sorted (series_unique column)).
Qed.

Lemma df_column_missing (df : DataFrame) (key : string) :
  key ∉ df_columns df → df_column df key = None.
Proof. intros Hout. unfold df_column. by rewrite decide_False. Qed.

(** X18.  [/countries] never raises and makes no call for a single country:
    it returns the [Country] column of the provider's catalogue, without
    duplicates and sorted, or else the values of the static table. *)
Theorem get_available_countries_never_raises s :
  ∃ countries s',
    get_available_countries s = (Returned countries, s')
    ∧ te_calls s' = te_calls s
    ∧ (countries = PyStr <$> dict_values CURRENCY_COUNTRY_MAP
       ∨ ∃ df column,
           (te_getIndicatorData_all (world s)).1 = TeReturns (Some df)
           ∧ df_empty df = false
           ∧ df_column df "Country" = Some column
           ∧ py_sorted (series_unique column) = Some countries).
Proof.
  eexists _, _. split; [apply get_available_countries_eq|].
  split; [done|].
  destruct (te_getIndicatorData_all (world s)).1 as [msg|[df|]];
    simpl; [by left| |by left].
  destruct (df_empty df) eqn:Hempty; [by left|].
  destruct (df_column df "Country") as [column|] eqn:Hcol; [|by left].
  destruct (py_sorted (series_unique column)) as [sorted|] eqn:Hsorted;
    [|by left].
  right. by exists df, column.
Qed.

(** X19.  When the catalogue call raises, returns [None] or an empty frame,
    or returns a frame without a [Country] column, [/countries] returns the
    24 values of the static table, in the table's order. *)
Theorem get_available_countries_fallback s :
  te_fails (te_getIndicatorData_all (world s)).1
  ∨ (∃ df, (te_getIndicatorData_all (world s)).1 = TeReturns (Some df)
           ∧ "Country"%string ∉ df_columns df) →
  (get_available_countries s).1
    = Returned (PyStr <$> dict_values CURRENCY_COUNTRY_MAP)
  ∧ length (dict_values CURRENCY_COUNTRY_MAP) = 24.
Proof.
  intros Hfail. split; [|reflexivity].
  rewrite get_available_countries_eq. simpl. f_equal.
  destruct Hfail as [Hfail|(df & -> & Hout)].
  - destruct (te_getIndicatorData_all (world s)).1 as [msg|[df|]];
      simpl in *; try reflexivity. by rewrite Hfail.
  - simpl. rewrite (df_column_missing df _ Hout).
    by destruct (df_empty df).
Qed.

(** X20.  When the catalogue is a frame that is not empty and whose
    [Country] column holds strings, [/countries] returns these names in
    ascending order, each once: the same names as the column, no more and
    no fewer. *)
Theorem get_available_countries_sorted s df (names : list string) :
  (te_getIndicatorData_all (world s)).1 = TeReturns (Some df) →
  df_empty df = false →
  df_column df "Country" = Some (PyStr <$> names) →
  ∃ sorted,
    (get_available_countries s).1 = Returned (PyStr <$> sorted)
    ∧ Sorted String.le sorted
    ∧ NoDup sorted
    ∧ ∀ name, name ∈ sorted ↔ name ∈ names.
Proof.
  intros Hanswer Hne Hcol. exists (merge_sort String.le (unique names)).
  split.
  - rewrite get_available_countries_eq, Hanswer. simpl.
    by rewrite Hne, Hcol, series_unique_str, py_sorted_str.
  - split; [apply (Sorted_merge_sort String.le)|].
    split.
    + rewrite merge_sort_Permutation. apply unique_from_NoDup.
    + intros name. rewrite merge_sort_Permutation. unfold unique.
      rewrite unique_from_elem_of. split; [tauto|].
      intros Hin. split; [done|]. apply not_elem_of_nil.
Qed.

End Countries.

(** * The remaining handlers at work *)

Section MoreRuns.

Local Open Scope list_scope.
Local Open Scope nat_scope.

Ltac computed := apply (bool_decide_unpack _); vm_compute; exact I.

Ltac listed := repeat first [apply list_elem_of_here | apply list_elem_of_further].

(** The columns of the reference runtime: [unique] on the cells, and a
    [sorted] that puts a column of strings in order; on the other columns,
    of which Python can sort some, it reports a [TypeError]. *)
Definition cell_str (c : pyval decimal) : option string :=
  match c with PyStr s => Some s | _ => None end.

#[local] Instance decimal_eq_dec : EqDecision decimal.
Proof. solve_decision. Defined.

#[local] Instance cell_eq_dec : EqDecision (pyval decimal).
Proof. solve_decision. Defined.

Lemma unique_from_fmap {A B} `{EqDecision A} `{EqDecision B} (f : A → B)
    `{!Inj (=) (=) f} (seen l : list A) :
  unique_from (f <$> seen) (f <$> l) = f <$> unique_from seen l.
Proof.
  revert seen. induction l as [|x l IH]; intros seen; simpl; [done|].
  destruct (decide (x ∈ seen)) as [Hin|Hout].
  - rewrite decide_True by (by apply list_elem_of_fmap_2). apply IH.
  - rewrite decide_False.
    + rewrite fmap_cons. f_equal. apply (IH (x :: seen)).
    + intros (y & Heq & Hy)%list_elem_of_fmap. apply (inj f) in Heq.
      by subst.
Qed.

Lemma unique_cells (names : list string) :
  unique (@PyStr decimal <$> names) = PyStr <$> unique names.
Proof.
  assert (Inj (=) (=) (@PyStr decimal)) as Hinj by (by intros s1 s2 [= ->]).
  exact (unique_from_fmap PyStr [] names).
Qed.

Lemma sorted_cells (names : list string) :
  (λ sorted, @PyStr decimal <$> sorted) ∘ merge_sort String.le
    <$> mapM cell_str (PyStr <$> names)
  = Some (PyStr <$> merge_sort String.le names).
Proof.
  assert (mapM cell_str (PyStr <$> names) = Some names) as ->; [|done].
  induction names as [|x names IH]; [done|].
  rewrite fmap_cons. cbn. by rewrite IH.
Qed.

#[local] Instance ref_columns : Columns := {|
  series_unique := unique;
  py_sorted column :=
    (λ sorted, PyStr <$> sorted) ∘ merge_sort String.le
      <$> mapM cell_str column;
  series_unique_str := unique_cells;
  py_sorted_str := sorted_cells
|}.

(** A frame that has only the [LastUpdate] column. *)
Definition update_only_frame : DataFrame := {|
  df_columns := ["LastUpdate"%string];
  df_rows := [[PyInt 3]]
|}.

Lemma safe_get_indicator_data_missing_columns_witness :
  (te_getIndicatorData "Japan" "Inflation Rate"
     (world (start [TeReturns (Some update_only_frame)]))).1
    = TeReturns (Some update_only_frame)
  ∧ df_empty update_only_frame = false
  ∧ ∃ d,
      (safe_get_indicator_data "Japan" "Inflation Rate"
         (start [TeReturns (Some update_only_frame)])).1
        = Returned (Some d)
      ∧ d_country d = PyStr "Japan"
      ∧ d_unit d = PyNone
      ∧ d_value d = PyInt 3.
Proof.
  assert ((te_getIndicatorData "Japan" "Inflation Rate"
             (world (start [TeReturns (Some update_only_frame)]))).1
          = TeReturns (Some update_only_frame)) as Hanswer by reflexivity.
  assert (df_empty update_only_frame = false) as Hne by reflexivity.
  split; [exact Hanswer|]. split; [exact Hne|].
  destruct (safe_get_indicator_data_missing_columns "Japan" "Inflation Rate"
              _ _ Hanswer Hne)
    as (d & Hrun & _ & Hcountry & _ & _ & Hunit & _).
  exists d. split; [exact Hrun|].
  split; [apply Hcountry; computed|]. split; [apply Hunit; computed|].
  vm_compute in Hrun. by injection Hrun as <-.
Defined.

Lemma get_country_economic_data_slot_labels_witness :
  ∃ r s' e,
    get_country_economic_data "Japan"
      (start [TeReturns (Some numeric_frame)]) = (Returned r, s')
    ∧ interest_rate r = Some e
    ∧ indicator e = "Interest Rate"%string.
Proof.
  destruct (get_country_economic_data "Japan"
              (start [TeReturns (Some numeric_frame)]))
    as [[r|e] s'] eqn:Hrun; [|vm_compute in Hrun; discriminate].
  destruct (get_country_economic_data_slot_labels _ _ _ _ Hrun)
    as (Hlabel & _).
  vm_compute in Hrun. injection Hrun as <- <-.
  eexists _, _, _. split; [reflexivity|]. split; [reflexivity|].
  by apply Hlabel.
Defined.

(** Two unsupported codes: the 404 names the base. *)
Lemma currency_pair_404_detail_witness :
  (str_upper "xx" ∉ dict_keys CURRENCY_COUNTRY_MAP)
  ∧ (str_upper "yy" ∉ dict_keys CURRENCY_COUNTRY_MAP)
  ∧ (get_currency_pair_data "xx" "yy" (start [])).1
    = Raised (HTTPException 404 "Currency XX not supported").
Proof.
  assert (str_upper "xx" ∉ dict_keys CURRENCY_COUNTRY_MAP) as Hb by computed.
  split; [exact Hb|]. split; [computed|].
  exact (proj1 (currency_pair_404_detail "xx" "yy" (start [])) Hb).
Defined.

Lemma currency_pair_calls_witness :
  dict_get CURRENCY_COUNTRY_MAP (str_upper "usd") = Some "United States"%string
  ∧ dict_get CURRENCY_COUNTRY_MAP (str_upper "jpy") = Some "Japan"%string
  ∧ ∃ p s',
      get_currency_pair_data "usd" "jpy" (start []) = (Returned p, s')
      ∧ ced_country (base_country_data p) = "United States"%string
      ∧ ced_country (quote_country_data p) = "Japan"%string
      ∧ te_calls s' =
          indicator_calls "United States" ++ indicator_calls "Japan".
Proof.
  assert (dict_get CURRENCY_COUNTRY_MAP (str_upper "usd")
          = Some "United States"%string) as Hb by reflexivity.
  assert (dict_get CURRENCY_COUNTRY_MAP (str_upper "jpy")
          = Some "Japan"%string) as Hq by reflexivity.
  split; [exact Hb|]. split; [exact Hq|].
  pose proof (proj1 (currency_pair_calls "usd" "jpy" _ _ (start []) Hb Hq))
    as Hcalls.
  destruct (get_currency_pair_data "usd" "jpy" (start []))
    as [[p|e] s'] eqn:Hrun; [|vm_compute in Hrun; discriminate].
  exists p, s'. split; [reflexivity|]. exact Hcalls.
Defined.

(** Three requested countries, one of them twice; the first fetch brings a
    row. *)
Lemma list_endpoints_fetch_requested_witness :
  (get_gdp_growth, "GDP Growth Rate"%string) ∈ list_endpoints (W := script)
  ∧ ((Some ["Japan"; "Chile"; "Japan"]%string
        = Some ["Japan"; "Chile"; "Japan"]%string
      ∧ ["Japan"; "Chile"; "Japan"]%string ≠ [])
     ∨ ((Some ["Japan"; "Chile"; "Japan"]%string = None
         ∨ Some ["Japan"; "Chile"; "Japan"]%string = Some [])
        ∧ ["Japan"; "Chile"; "Japan"]%string
          = ["United States"; "Euro Area"; "United Kingdom"; "Japan";
             "Switzerland"; "Canada"; "Australia"; "New Zealand"; "Sweden";
             "Norway"]%string))
  ∧ Forall slot_ok
      (fetch_all
         ((λ country, (country, "GDP Growth Rate"%string))
            <$> ["Japan"; "Chile"; "Japan"]%string)
         (start [TeReturns (Some numeric_frame)])).1
  ∧ ∃ entries s',
      get_gdp_growth (Some ["Japan"; "Chile"; "Japan"]%string)
        (start [TeReturns (Some numeric_frame)]) = (Returned entries, s')
      ∧ length entries = 1
      ∧ te_calls s' =
          [("Japan", "GDP Growth Rate"); ("Chile", "GDP Growth Rate");
           ("Japan", "GDP Growth Rate")]%string.
Proof.
  assert ((get_gdp_growth, "GDP Growth Rate"%string)
            ∈ list_endpoints (W := script)) as Hin by listed.
  assert ((Some ["Japan"; "Chile"; "Japan"]%string
             = Some ["Japan"; "Chile"; "Japan"]%string
           ∧ ["Japan"; "Chile"; "Japan"]%string ≠ [])
          ∨ ((Some ["Japan"; "Chile"; "Japan"]%string = None
              ∨ Some ["Japan"; "Chile"; "Japan"]%string = Some [])
             ∧ ["Japan"; "Chile"; "Japan"]%string
               = ["United States"; "Euro Area"; "United Kingdom"; "Japan";
                  "Switzerland"; "Canada"; "Australia"; "New Zealand";
                  "Sweden"; "Norway"]%string)) as Hcase
    by (left; split; [reflexivity|discriminate]).
  assert (Forall slot_ok
            (fetch_all
               ((λ country, (country, "GDP Growth Rate"%string))
                  <$> ["Japan"; "Chile"; "Japan"]%string)
               (start [TeReturns (Some numeric_frame)])).1) as Hok.
  { match goal with
    | |- Forall ?P ?l =>
        let l' := eval vm_compute in l in change (Forall P l')
    end.
    repeat first [apply Forall_nil | apply Forall_cons_2];
      first [exact I | (eexists; reflexivity)]. }
  split; [exact Hin|]. split; [exact Hcase|]. split; [exact Hok|].
  destruct (list_endpoints_fetch_requested _ _ _ _ _ Hin Hcase Hok)
    as (ods & s' & Hfetch & Hrun & Hcalls & _).
  exists (omap slot_of ods), s'. split; [exact Hrun|].
  vm_compute in Hfetch. injection Hfetch as <- <-. split; reflexivity.
Defined.

Lemma list_endpoints_entries_labelled_witness :
  (get_inflation_rates, "Inflation Rate"%string) ∈ list_endpoints (W := script)
  ∧ ∃ entries s',
      get_inflation_rates (Some ["Japan"%string])
        (start [TeReturns (Some numeric_frame)]) = (Returned entries, s')
      ∧ Forall (λ e, indicator e = "Inflation Rate"%string) entries
      ∧ length entries = 1.
Proof.
  assert ((get_inflation_rates, "Inflation Rate"%string)
            ∈ list_endpoints (W := script)) as Hin by listed.
  split; [exact Hin|].
  destruct (get_inflation_rates (Some ["Japan"%string])
              (start [TeReturns (Some numeric_frame)]))
    as [[entries|e] s'] eqn:Hrun; [|vm_compute in Hrun; discriminate].
  exists entries, s'. split; [reflexivity|].
  split;
    [exact (proj1 (list_endpoints_entries_labelled _ _ _ _ _ _ Hin Hrun))|].
  vm_compute in Hrun. by injection Hrun as <- <-.
Defined.

(** The second of three requested countries brings the provider's own
    row: the sweep of [/unemployment] stops there and the third country is
    never fetched. *)
Lemma list_endpoints_outcome_witness :
  (get_unemployment_rates, "Unemployment Rate"%string)
    ∈ list_endpoints (W := script)
  ∧ ((Some ["Chile"; "United States"; "Peru"]%string
        = Some ["Chile"; "United States"; "Peru"]%string
      ∧ ["Chile"; "United States"; "Peru"]%string ≠ [])
     ∨ ((Some ["Chile"; "United States"; "Peru"]%string = None
         ∨ Some ["Chile"; "United States"; "Peru"]%string = Some [])
        ∧ ["Chile"; "United States"; "Peru"]%string
          = ["United States"; "Euro Area"; "United Kingdom"; "Japan";
             "Switzerland"; "Canada"; "Australia"; "New Zealand"; "Sweden";
             "Norway"]%string))
  ∧ ∃ s',
      get_unemployment_rates (Some ["Chile"; "United States"; "Peru"]%string)
        (start [TeReturns None; TeReturns (Some us_rate_frame)])
        = (Raised ValidationError, s')
      ∧ te_calls s' =
          [("Chile", "Unemployment Rate");
           ("United States", "Unemployment Rate")]%string.
Proof.
  assert ((get_unemployment_rates, "Unemployment Rate"%string)
            ∈ list_endpoints (W := script)) as Hin by listed.
  assert ((Some ["Chile"; "United States"; "Peru"]%string
             = Some ["Chile"; "United States"; "Peru"]%string
           ∧ ["Chile"; "United States"; "Peru"]%string ≠ [])
          ∨ ((Some ["Chile"; "United States"; "Peru"]%string = None
              ∨ Some ["Chile"; "United States"; "Peru"]%string = Some [])
             ∧ ["Chile"; "United States"; "Peru"]%string
               = ["United States"; "Euro Area"; "United Kingdom"; "Japan";
                  "Switzerland"; "Canada"; "Australia"; "New Zealand";
                  "Sweden"; "Norway"]%string)) as Hcase
    by (left; split; [reflexivity|discriminate]).
  split; [exact Hin|]. split; [exact Hcase|].
  pose proof (list_endpoints_outcome _ _ _ _
                (start [TeReturns None; TeReturns (Some us_rate_frame)])
                Hin Hcase) as Hout.
  destruct (get_unemployment_rates
              (Some ["Chile"; "United States"; "Peru"]%string)
              (start [TeReturns None; TeReturns (Some us_rate_frame)]))
    as [[entries|e] s'] eqn:Hrun; [vm_compute in Hrun; discriminate|].
  destruct Hout as (-> & _ & i & od & _ & _ & _ & _ & _).
  exists s'. split; [reflexivity|].
  vm_compute in Hrun. by injection Hrun as <-.
Defined.

Lemma list_endpoints_provider_down_witness :
  (get_interest_rates, "Interest Rate"%string) ∈ list_endpoints (W := script)
  ∧ Forall te_fails
      (provider_run
         (list_calls "Interest Rate"
            (countries_or_default (Some ["Chile"; "Peru"]%string)))
         (world (start [TeRaises "timed out"; TeReturns None]))).1
  ∧ (get_interest_rates (Some ["Chile"; "Peru"]%string)
       (start [TeRaises "timed out"; TeReturns None])).1 = Returned []
  ∧ http_status
      (get_interest_rates (Some ["Chile"; "Peru"]%string)
         (start [TeRaises "timed out"; TeReturns None])).1 = 200.
Proof.
  assert ((get_interest_rates, "Interest Rate"%string)
            ∈ list_endpoints (W := script)) as Hin by listed.
  assert (Forall te_fails
            (provider_run
               (list_calls "Interest Rate"
                  (countries_or_default (Some ["Chile"; "Peru"]%string)))
               (world (start [TeRaises "timed out"; TeReturns None]))).1)
    as Hdown by (repeat constructor).
  split; [exact Hin|]. split; [exact Hdown|].
  exact (list_endpoints_provider_down _ _ _ _ Hin Hdown).
Defined.


Lemma all_currency_pairs_codes_witness :
  Forall (λ code, str_upper code = code) major_currencies
  ∧ ∃ pairs s',
      get_all_major_currency_pairs (start [TeReturns (Some us_rate_frame)])
        = (Returned pairs, s')
      ∧ pair_codes <$> pairs `sublist_of` sweep_combinations
      ∧ length pairs ≤ 18.
Proof.
  assert (Forall (λ code, str_upper code = code) major_currencies) as Hfix
    by (repeat constructor).
  split; [exact Hfix|].
  destruct (all_currency_pairs_codes
              (start [TeReturns (Some us_rate_frame)]) Hfix)
    as (pairs & s' & Hrun & Hsub & Hlen & _).
  exists pairs, s'. split; [exact Hrun|]. split; [exact Hsub|exact Hlen].
Defined.


Lemma health_check_empty_frame_witness :
  (te_getIndicatorData "United States" "Interest Rate"
     (world (start [TeReturns
                      (Some {| df_columns := ["Country"%string];
                               df_rows := [] |})]))).1
    = TeReturns (Some {| df_columns := ["Country"%string]; df_rows := [] |})
  ∧ df_empty {| df_columns := ["Country"%string]; df_rows := [] |} = true
  ∧ (∃ report s',
       health_check
         (start [TeReturns
                   (Some {| df_columns := ["Country"%string];
                            df_rows := [] |})]) = (Returned report, s')
       ∧ trading_economics_api report = "healthy"%string)
  ∧ (safe_get_indicator_data "United States" "Interest Rate"
       (start [TeReturns
                 (Some {| df_columns := ["Country"%string];
                          df_rows := [] |})])).1 = Returned None.
Proof.
  split; [reflexivity|]. split; [reflexivity|].
  exact (health_check_empty_frame
           (start [TeReturns
                     (Some {| df_columns := ["Country"%string];
                              df_rows := [] |})])
           {| df_columns := ["Country"%string]; df_rows := [] |}
           eq_refl eq_refl).
Defined.

(** A catalogue that cannot be reached. *)
Lemma get_available_countries_fallback_witness :
  (te_fails (te_getIndicatorData_all (world (catalogue_start []))).1
   ∨ ∃ df,
       (te_getIndicatorData_all (world (catalogue_start []))).1
         = TeReturns (Some df)
       ∧ "Country"%string ∉ df_columns df)
  ∧ (get_available_countries (catalogue_start [])).1
    = Returned (PyStr <$> dict_values CURRENCY_COUNTRY_MAP).
Proof.
  assert (te_fails (te_getIndicatorData_all (world (catalogue_start []))).1
          ∨ ∃ df,
              (te_getIndicatorData_all (world (catalogue_start []))).1
                = TeReturns (Some df)
              ∧ "Country"%string ∉ df_columns df) as Hfail
    by (left; exact I).
  split; [exact Hfail|].
  exact (proj1 (get_available_countries_fallback (catalogue_start []) Hfail)).
Defined.

(** Sweden twice, Japan and Canada: three names, in order. *)
Lemma get_available_countries_sorted_witness :
  (te_getIndicatorData_all
     (world (catalogue_start [TeReturns (Some catalogue_frame)]))).1
    = TeReturns (Some catalogue_frame)
  ∧ df_empty catalogue_frame = false
  ∧ df_column catalogue_frame "Country"
    = Some (PyStr <$> ["Sweden"; "Japan"; "Sweden"; "Canada"]%string)
  ∧ (∃ sorted,
       (get_available_countries
          (catalogue_start [TeReturns (Some catalogue_frame)])).1
         = Returned (PyStr <$> sorted)
       ∧ Sorted String.le sorted
       ∧ NoDup sorted)
  ∧ (get_available_countries
       (catalogue_start [TeReturns (Some catalogue_frame)])).1
    = Returned [PyStr "Canada"; PyStr "Japan"; PyStr "Sweden"].
Proof.
  assert ((te_getIndicatorData_all
             (world (catalogue_start [TeReturns (Some catalogue_frame)]))).1
          = TeReturns (Some catalogue_frame)) as Hanswer by reflexivity.
  assert (df_empty catalogue_frame = false) as Hne by reflexivity.
  assert (df_column catalogue_frame "Country"
          = Some (PyStr <$> ["Sweden"; "Japan"; "Sweden"; "Canada"]%string))
    as Hcol by reflexivity.
  split; [exact Hanswer|]. split; [exact Hne|]. split; [exact Hcol|].
  split; [|reflexivity].
  destruct (get_available_countries_sorted _ _ _ Hanswer Hne Hcol)
    as (sorted & Hrun & Hsorted & Hnodup & _).
  exists sorted. split; [exact Hrun|]. split; [exact Hsorted|exact Hnodup].
Defined.

End MoreRuns.

(** * The static table is never modified *)

Section TableInvariant.
Context `{RT : Runtime} {W0 : Type} `{PR0 : !Provider W0}.
Context `{CA0 : !Catalogue W0} `{CO : !Columns}.

Local Open Scope list_scope.
Local Open Scope nat_scope.

#[local] Existing Instance Live.provider.
#[local] Existing Instance Live.catalogue.

Local Abbreviation LM := (@M (module_state W0)).

Implicit Types (s : state (module_state W0)).

Lemma keeps_ret {A} (a : A) : Live.keeps_table (ret a : LM A).
Proof. by intros s. Qed.

Lemma keeps_raise {A} (e : exn) : Live.keeps_table (raise e : LM A).
Proof. by intros s. Qed.

Lemma keeps_bind {A B} (m : LM A) (k : A → LM B) :
  Live.keeps_table m → (∀ a, Live.keeps_table (k a)) → Live.keeps_table (bind m k).
Proof.
  intros Hm Hk s. specialize (Hm s). unfold bind.
  destruct (m s) as [[a|e] s1]; simpl in *; [|done].
  by rewrite Hk.
Qed.

Lemma keeps_try_except {A} (m : LM A) (h : exn → LM A) :
  Live.keeps_table m → (∀ e, Live.keeps_table (h e)) → Live.keeps_table (try_except m h).
Proof.
  intros Hm Hh s. specialize (Hm s). unfold try_except.
  destruct (m s) as [[a|e] s1]; simpl in *; [done|].
  by rewrite Hh.
Qed.

Lemma keeps_for_each {X A} (xs : list X) (body : X → A → LM A) (acc : A) :
  (∀ x a, Live.keeps_table (body x a)) → Live.keeps_table (for_each xs body acc).
Proof.
  intros Hbody. revert acc. induction xs as [|x xs IH]; intros acc; simpl.
  - apply keeps_ret.
  - apply keeps_bind; [apply Hbody|apply IH].
Qed.

Lemma keeps_or_raise {A} (e : exn) (o : option A) :
  Live.keeps_table (or_raise e o : LM A).
Proof. destruct o; [apply keeps_ret|apply keeps_raise]. Qed.

Lemma keeps_getIndicatorData country indicator :
  Live.keeps_table (getIndicatorData country indicator).
Proof.
  intros s. unfold getIndicatorData. simpl.
  destruct (te_getIndicatorData country indicator (outside (world s)))
    as [[msg|data] w']; reflexivity.
Qed.

Lemma keeps_datetime_now : Live.keeps_table datetime_now.
Proof.
  intros s. unfold datetime_now. simpl.
  by destruct (datetime_now_isoformat (outside (world s))) as [t w'].
Qed.

Lemma keeps_getAllIndicatorData : Live.keeps_table getAllIndicatorData.
Proof.
  intros s. unfold getAllIndicatorData. simpl.
  destruct (te_getIndicatorData_all (outside (world s)))
    as [[msg|data] w']; reflexivity.
Qed.

Lemma keeps_CURRENCY_COUNTRY_MAP_now :
  Live.keeps_table (Live.CURRENCY_COUNTRY_MAP_now (W0 := W0)).
Proof. by intros s. Qed.

(** One step of the argument: the way a handler is put together. *)
Ltac keeps_step :=
  first
    [ apply keeps_ret | apply keeps_raise | apply keeps_or_raise
    | apply keeps_getIndicatorData | apply keeps_datetime_now
    | apply keeps_getAllIndicatorData | apply keeps_CURRENCY_COUNTRY_MAP_now
    | apply keeps_bind; [|intros ?]
    | apply keeps_try_except; [|intros ?]
    | apply keeps_for_each; intros ? ?
    | match goal with
      | |- Live.keeps_table (match ?x with _ => _ end) => destruct x
      | |- Live.keeps_table (if ?b then _ else _) => destruct b
      end ].

Lemma keeps_safe_get_indicator_data country indicator :
  Live.keeps_table (safe_get_indicator_data country indicator).
Proof. unfold safe_get_indicator_data. repeat keeps_step. Qed.

Lemma keeps_EconomicIndicator_new (d : indicator_dict) :
  Live.keeps_table (EconomicIndicator_new d : LM _).
Proof. unfold EconomicIndicator_new. apply keeps_or_raise. Qed.

Lemma keeps_CountryEconomicData_new country data now :
  Live.keeps_table (CountryEconomicData_new country data now : LM _).
Proof. unfold CountryEconomicData_new. repeat keeps_step. Qed.

Lemma keeps_get_country_economic_data country :
  Live.keeps_table (get_country_economic_data country).
Proof.
  unfold get_country_economic_data.
  apply keeps_bind; [|intros data; apply keeps_bind;
                       [apply keeps_datetime_now
                       |intros now; apply keeps_CountryEconomicData_new]].
  apply keeps_for_each. intros [key indicator] data.
  apply keeps_bind; [apply keeps_safe_get_indicator_data|].
  intros [d|]; [|apply keeps_ret].
  apply keeps_bind; [apply keeps_EconomicIndicator_new|].
  intros e. apply keeps_ret.
Qed.

Lemma keeps_get_country_indicators country :
  Live.keeps_table (get_country_indicators country).
Proof.
  unfold get_country_indicators.
  apply keeps_try_except; [|intros e; apply keeps_raise].
  apply keeps_bind; [apply keeps_get_country_economic_data|].
  intros data. apply keeps_ret.
Qed.

Lemma keeps_health_check : Live.keeps_table health_check.
Proof. unfold health_check. repeat keeps_step. Qed.

Lemma keeps_collect_indicator label (countries : list string) :
  Live.keeps_table (collect_indicator label countries).
Proof.
  unfold collect_indicator. apply keeps_for_each. intros country results.
  apply keeps_bind; [apply keeps_safe_get_indicator_data|].
  intros [d|]; [|apply keeps_ret].
  apply keeps_bind; [apply keeps_EconomicIndicator_new|].
  intros e. apply keeps_ret.
Qed.

Lemma keeps_get_available_countries : Live.keeps_table Live.get_available_countries.
Proof. unfold Live.get_available_countries. repeat keeps_step. Qed.

Lemma keeps_get_currency_pair_data base quote :
  Live.keeps_table (Live.get_currency_pair_data base quote).
Proof.
  unfold Live.get_currency_pair_data.
  apply keeps_bind; [apply keeps_CURRENCY_COUNTRY_MAP_now|]. intros t1.
  destruct (negb (dict_contains t1 (str_upper base))); [apply keeps_raise|].
  apply keeps_bind; [apply keeps_CURRENCY_COUNTRY_MAP_now|]. intros t2.
  destruct (negb (dict_contains t2 (str_upper quote))); [apply keeps_raise|].
  apply keeps_bind; [apply keeps_CURRENCY_COUNTRY_MAP_now|]. intros t3.
  apply keeps_bind; [apply keeps_or_raise|]. intros base_country.
  apply keeps_bind; [apply keeps_CURRENCY_COUNTRY_MAP_now|]. intros t4.
  apply keeps_bind; [apply keeps_or_raise|]. intros quote_country.
  apply keeps_try_except; [|intros e; apply keeps_raise].
  apply keeps_bind; [apply keeps_get_country_economic_data|]. intros bd.
  apply keeps_bind; [apply keeps_get_country_economic_data|]. intros qd.
  apply keeps_ret.
Qed.

Lemma keeps_countries_or_default (countries : option (list string)) :
  Live.keeps_table (Live.countries_or_default countries : LM _).
Proof.
  destruct countries as [[|c cs]|]; simpl; repeat keeps_step.
Qed.

Lemma keeps_get_all_major_currency_pairs :
  Live.keeps_table Live.get_all_major_currency_pairs.
Proof.
  unfold Live.get_all_major_currency_pairs.
  apply keeps_for_each. intros base pairs.
  apply keeps_for_each. intros quote pairs'.
  destruct (decide (base ≠ quote)); [|apply keeps_ret].
  unfold Live.try_pair. apply keeps_try_except; [|intros e; apply keeps_ret].
  apply keeps_bind; [apply keeps_get_currency_pair_data|].
  intros p. apply keeps_ret.
Qed.

(** Every route leaves the dict as it found it. *)
Lemma keeps_serve (req : request) : Live.keeps_table (Live.serve req).
Proof.
  destruct req; unfold Live.serve, Live.answer;
    (apply keeps_bind; [|intros a; apply keeps_ret]).
  - apply keeps_ret.
  - apply keeps_get_available_countries.
  - unfold Live.get_available_currencies. repeat keeps_step.
  - apply keeps_get_country_indicators.
  - apply keeps_get_currency_pair_data.
  - apply keeps_bind; [apply keeps_countries_or_default|].
    intros cs. apply keeps_collect_indicator.
  - apply keeps_bind; [apply keeps_countries_or_default|].
    intros cs. apply keeps_collect_indicator.
  - apply keeps_bind; [apply keeps_countries_or_default|].
    intros cs. apply keeps_collect_indicator.
  - apply keeps_bind; [apply keeps_countries_or_default|].
    intros cs. apply keeps_collect_indicator.
  - apply keeps_get_all_major_currency_pairs.
  - apply keeps_health_check.
Qed.

Lemma keeps_serve_all (reqs : list request) s :
  currency_country_map (world (Live.serve_all reqs s))
  = currency_country_map (world s).
Proof.
  unfold Live.serve_all. revert s. induction reqs as [|req reqs IH]; intros s.
  - reflexivity.
  - simpl. rewrite IH. apply keeps_serve.
Qed.

(** ** On the table as written, the handlers are those above

    As long as the process holds the table of the source, and it always
    does, a handler that reads the table from the state does what the
    handler above, which has the table written in, does. *)

Lemma live_get_available_currencies s :
  currency_country_map (world s) = CURRENCY_COUNTRY_MAP →
  Live.get_available_currencies s = get_available_currencies s.
Proof.
  intros Htable.
  unfold Live.get_available_currencies, bind, Live.CURRENCY_COUNTRY_MAP_now.
  by rewrite Htable.
Qed.

Lemma live_get_available_countries s :
  currency_country_map (world s) = CURRENCY_COUNTRY_MAP →
  Live.get_available_countries s = get_available_countries s.
Proof.
  intros Htable. rewrite get_available_countries_eq.
  unfold Live.get_available_countries, bind, try_except, getAllIndicatorData,
    Live.CURRENCY_COUNTRY_MAP_now, ret.
  simpl.
  destruct (te_getIndicatorData_all (outside (world s)))
    as [[msg|[df|]] w1]; simpl; rewrite ?Htable; try reflexivity.
  destruct (df_empty df); simpl; rewrite ?Htable; [reflexivity|].
  destruct (df_column df "Country") as [column|]; simpl;
    rewrite ?Htable; [|reflexivity].
  destruct (py_sorted (series_unique column)); simpl;
    rewrite ?Htable; reflexivity.
Qed.

Lemma live_get_currency_pair_data base quote s :
  currency_country_map (world s) = CURRENCY_COUNTRY_MAP →
  Live.get_currency_pair_data base quote s = get_currency_pair_data base quote s.
Proof.
  intros Htable.
  unfold Live.get_currency_pair_data, get_currency_pair_data.
  unfold bind at 1. unfold Live.CURRENCY_COUNTRY_MAP_now at 1.
  rewrite Htable.
  destruct (negb (dict_contains CURRENCY_COUNTRY_MAP (str_upper base)));
    [done|].
  unfold bind at 1. unfold Live.CURRENCY_COUNTRY_MAP_now at 1.
  rewrite Htable.
  destruct (negb (dict_contains CURRENCY_COUNTRY_MAP (str_upper quote)));
    [done|].
  unfold bind at 1. unfold Live.CURRENCY_COUNTRY_MAP_now at 1.
  rewrite Htable. unfold bind at 1 5.
  destruct (dict_get CURRENCY_COUNTRY_MAP (str_upper base)) as [bc|];
    simpl; [|done].
  unfold bind at 1. unfold Live.CURRENCY_COUNTRY_MAP_now at 1.
  by rewrite Htable.
Qed.

Lemma live_countries_or_default (countries : option (list string)) s :
  currency_country_map (world s) = CURRENCY_COUNTRY_MAP →
  Live.countries_or_default countries s
  = (Returned (countries_or_default countries), s).
Proof.
  intros Htable.
  destruct countries as [[|c cs]|]; simpl; try done;
    unfold bind, Live.CURRENCY_COUNTRY_MAP_now; by rewrite Htable.
Qed.

Lemma live_list_endpoints (countries : option (list string)) s :
  currency_country_map (world s) = CURRENCY_COUNTRY_MAP →
  Live.get_interest_rates countries s = get_interest_rates countries s
  ∧ Live.get_gdp_growth countries s = get_gdp_growth countries s
  ∧ Live.get_inflation_rates countries s = get_inflation_rates countries s
  ∧ Live.get_unemployment_rates countries s
    = get_unemployment_rates countries s.
Proof.
  intros Htable.
  unfold Live.get_interest_rates, Live.get_gdp_growth,
    Live.get_inflation_rates, Live.get_unemployment_rates.
  unfold bind. by rewrite (live_countries_or_default countries s Htable).
Qed.

Lemma for_each_agree {X A} (xs : list X) (live body : X → A → LM A)
    (acc : A) s :
  (∀ x a, Live.keeps_table (live x a)) →
  (∀ x a s', currency_country_map (world s') = CURRENCY_COUNTRY_MAP →
             live x a s' = body x a s') →
  currency_country_map (world s) = CURRENCY_COUNTRY_MAP →
  for_each xs live acc s = for_each xs body acc s.
Proof.
  intros Hkeeps Hagree. revert acc s.
  induction xs as [|x xs IH]; intros acc s Htable; [done|].
  simpl. unfold bind. rewrite <- (Hagree x acc s Htable).
  pose proof (Hkeeps x acc s) as Hkept. rewrite Htable in Hkept.
  destruct (live x acc s) as [[acc'|e] s1]; [|done].
  by apply IH.
Qed.

Lemma keeps_try_pair base quote (pairs : list CurrencyPairData) :
  Live.keeps_table (Live.try_pair base quote pairs).
Proof.
  unfold Live.try_pair. apply keeps_try_except; [|intros e; apply keeps_ret].
  apply keeps_bind; [apply keeps_get_currency_pair_data|].
  intros p. apply keeps_ret.
Qed.

Lemma live_get_all_major_currency_pairs s :
  currency_country_map (world s) = CURRENCY_COUNTRY_MAP →
  Live.get_all_major_currency_pairs s = get_all_major_currency_pairs s.
Proof.
  unfold Live.get_all_major_currency_pairs, get_all_major_currency_pairs.
  apply for_each_agree.
  - intros base pairs. apply keeps_for_each. intros quote pairs'.
    destruct (decide (base ≠ quote)); [apply keeps_try_pair|apply keeps_ret].
  - intros base pairs s' Htable. apply for_each_agree; [| |done].
    + intros quote pairs'.
      destruct (decide (base ≠ quote)); [apply keeps_try_pair|apply keeps_ret].
    + intros quote pairs' s'' Htable'.
      destruct (decide (base ≠ quote)); [|done].
      unfold Live.try_pair, try_pair, try_except, bind.
      by rewrite (live_get_currency_pair_data base quote s'' Htable').
Qed.

(** C6.  [/currencies] returns the keys of the table, which are the 24 keys
    of the table as written in the source, in its order, whatever the state
    of the provider; and no route modifies the table: every request, to
    any route and with any parameters, leaves the dict the process holds
    as it found it, so that after any sequence of requests [/currencies]
    still returns the same 24 keys. *)
Theorem get_available_currencies_static :
  (∀ s, currency_country_map (world s) = CURRENCY_COUNTRY_MAP →
        Live.get_available_currencies s =
          (Returned
             ["USD"; "EUR"; "GBP"; "JPY"; "CHF"; "CAD"; "AUD"; "NZD"; "SEK";
              "NOK"; "DKK"; "PLN"; "CZK"; "HUF"; "SGD"; "HKD"; "KRW"; "CNY";
              "INR"; "BRL"; "MXN"; "ZAR"; "RUB"; "TRY"]%string, s))
  ∧ (∀ (req : request) s,
       currency_country_map (world (Live.serve req s).2)
       = currency_country_map (world s))
  ∧ (∀ (reqs : list request) s,
       currency_country_map (world s) = CURRENCY_COUNTRY_MAP →
       (Live.serve Currencies (Live.serve_all reqs s)).1 =
         Returned
           (Live.CurrencyCodes
              ["USD"; "EUR"; "GBP"; "JPY"; "CHF"; "CAD"; "AUD"; "NZD"; "SEK";
               "NOK"; "DKK"; "PLN"; "CZK"; "HUF"; "SGD"; "HKD"; "KRW"; "CNY";
               "INR"; "BRL"; "MXN"; "ZAR"; "RUB"; "TRY"]%string))
  ∧ length (dict_keys CURRENCY_COUNTRY_MAP) = 24
  ∧ NoDup (dict_keys CURRENCY_COUNTRY_MAP).
Proof.
  split; [|split; [|split; [|split]]].
  - intros s Htable.
    unfold Live.get_available_currencies, bind, Live.CURRENCY_COUNTRY_MAP_now, ret.
    by rewrite Htable.
  - intros req s. apply keeps_serve.
  - intros reqs s Htable.
    pose proof (keeps_serve_all reqs s) as Hkept. rewrite Htable in Hkept.
    unfold Live.serve, Live.answer, Live.get_available_currencies, bind,
      Live.CURRENCY_COUNTRY_MAP_now, ret.
    simpl. by rewrite Hkept.
  - reflexivity.
  - apply (bool_decide_unpack _). by vm_compute.
Qed.

End TableInvariant.

(** * The table after a run of requests *)

Section TableRuns.

#[local] Existing Instance Live.provider.
#[local] Existing Instance Live.catalogue.
#[local] Existing Instance ref_columns.

(** A process that holds the table of the source, with a provider that has
    two rows and a catalogue to give. *)
Definition live_start : state (module_state catalogue_script) :=
  mkState
    {| currency_country_map := CURRENCY_COUNTRY_MAP;
       outside :=
         {| catalogue := [TeReturns (Some catalogue_frame)];
            indicator_script :=
              {| responses := [TeReturns (Some us_rate_frame);
                               TeReturns (Some numeric_frame)];
                 clock := ["2024-01-31T12:00:00"] |} |} |}
    [].

(** Seven requests, some of which end in an error, and then
    [/currencies]. *)
Lemma get_available_currencies_static_witness :
  currency_country_map (world live_start) = CURRENCY_COUNTRY_MAP
  ∧ (Live.serve Currencies
       (Live.serve_all
          [Indicators "United States"; CurrencyPair "usd" "jpy";
           CurrencyPair "usd" "xyz"; InterestRates None; Countries;
           AllCurrencyPairs; Health]
          live_start)).1 =
      Returned
        (Live.CurrencyCodes
           ["USD"; "EUR"; "GBP"; "JPY"; "CHF"; "CAD"; "AUD"; "NZD"; "SEK";
            "NOK"; "DKK"; "PLN"; "CZK"; "HUF"; "SGD"; "HKD"; "KRW"; "CNY";
            "INR"; "BRL"; "MXN"; "ZAR"; "RUB"; "TRY"]).
Proof.
  assert (currency_country_map (world live_start) = CURRENCY_COUNTRY_MAP)
    as Htable by reflexivity.
  split; [exact Htable|].
  exact (proj1 (proj2 (proj2 get_available_currencies_static))
           [Indicators "United States"; CurrencyPair "usd" "jpy";
            CurrencyPair "usd" "xyz"; InterestRates None; Countries;
            AllCurrencyPairs; Health]
           live_start Htable).
Defined.

End TableRuns.
